(** * Smart Expense Tracker: categorizer, forecast and alert engine, chat assistant

    A shallow embedding of the decision logic of
    [ml/categorizer.py], [ml/predictor.py], [ml/assistant.py] and of the
    storage operations of [database/db_manager.py] they rely on.

    Conventions of the embedding:
    - Python [str] is [string]; the text functions ([lower], [strip],
      [split], [title], the regular-expression classes) are given for ASCII
      text, a byte above 127 being neither a letter, a digit nor a space.
    - Python [float] amounts are exact rationals [Q]; the literals [0.95],
      [1.1], [0.5] are the decimal fractions they denote.
    - [None] is [None] of an [option]; a raised exception is the [Raise]
      constructor of [outcome]. *)

From Stdlib Require Import ZArith QArith Qround Qabs Lia List Bool Ascii String Sorted.
From stdpp Require Import base option list strings gmap.

Import ListNotations.
Local Open Scope string_scope.
Local Open Scope list_scope.

(** ** Python text primitives *)

Module Text.

Definition code (c : ascii) : nat := nat_of_ascii c.

Definition between (lo hi : nat) (c : ascii) : bool :=
  (lo <=? code c)%nat && (code c <=? hi)%nat.

Definition is_upper (c : ascii) : bool := between 65 90 c.
Definition is_lower (c : ascii) : bool := between 97 122 c.
Definition is_alpha (c : ascii) : bool := is_upper c || is_lower c.
Definition is_digit (c : ascii) : bool := between 48 57 c.
Definition is_alnum (c : ascii) : bool := is_alpha c || is_digit c.

(** [str.isspace] on ASCII: tab, newline, vertical tab, form feed, carriage
    return, the four separators 28-31 and the space. *)
Definition is_space (c : ascii) : bool :=
  between 9 13 c || between 28 31 c || (code c =? 32)%nat.

Definition lower_char (c : ascii) : ascii :=
  if is_upper c then ascii_of_nat (code c + 32) else c.
Definition upper_char (c : ascii) : ascii :=
  if is_lower c then ascii_of_nat (code c - 32) else c.

Fixpoint smap (f : ascii -> ascii) (s : string) : string :=
  match s with
  | EmptyString => EmptyString
  | String c s' => String (f c) (smap f s')
  end.

(** [s.lower()] and [s.upper()] *)
Definition lower (s : string) : string := smap lower_char s.
Definition upper (s : string) : string := smap upper_char s.

Fixpoint lstrip (s : string) : string :=
  match s with
  | String c s' => if is_space c then lstrip s' else s
  | EmptyString => EmptyString
  end.

Fixpoint rstrip (s : string) : string :=
  match s with
  | EmptyString => EmptyString
  | String c s' =>
      match rstrip s' with
      | EmptyString => if is_space c then EmptyString else String c EmptyString
      | r => String c r
      end
  end.

(** [s.strip()] *)
Definition strip (s : string) : string := rstrip (lstrip s).

(** [s.split()]: the maximal runs of non-space characters. [cur] is the
    run being read, in reverse. *)
Fixpoint split_go (cur : list ascii) (s : string) : list string :=
  let flush := match cur with
               | [] => []
               | _ => [string_of_list_ascii (rev cur)]
               end in
  match s with
  | EmptyString => flush
  | String c s' =>
      if is_space c then flush ++ split_go [] s'
      else split_go (c :: cur) s'
  end.

Definition split (s : string) : list string := split_go [] s.

(** [sep.join(parts)] *)
Fixpoint join (sep : string) (parts : list string) : string :=
  match parts with
  | [] => EmptyString
  | [p] => p
  | p :: rest => p ++ sep ++ join sep rest
  end.

Fixpoint starts_with (p s : string) : bool :=
  match p, s with
  | EmptyString, _ => true
  | String a p', String b s' => if Ascii.eqb a b then starts_with p' s' else false
  | String _ _, EmptyString => false
  end.

(** [needle in hay] *)
Fixpoint contains (needle hay : string) : bool :=
  starts_with needle hay ||
  match hay with
  | EmptyString => false
  | String _ hay' => contains needle hay'
  end.

(** [s.title()]: a letter that follows a letter is lower-cased, any other
    letter is upper-cased. *)
Fixpoint title_go (prev_cased : bool) (s : string) : string :=
  match s with
  | EmptyString => EmptyString
  | String c s' =>
      String (if prev_cased then lower_char c else upper_char c)
             (title_go (is_alpha c) s')
  end.

Definition title (s : string) : string := title_go false s.

(** [s.capitalize()] *)
Definition capitalize (s : string) : string :=
  match s with
  | EmptyString => EmptyString
  | String c s' => String (upper_char c) (lower s')
  end.

End Text.

(** ** ml/categorizer.py *)

Module Categorizer.

(** [TRAINING_DATA], in the insertion order of the dict literal. *)
Definition TRAINING_DATA : list (string * list string) :=
  [ ("Food & Dining",
      ["restaurant"; "pizza"; "burger"; "coffee"; "cafe"; "lunch"; "dinner";
       "breakfast"; "groceries"; "supermarket"; "food"; "meal"; "snack";
       "bakery"; "swiggy"; "zomato"; "ubereats"; "doordash"; "mcdonalds";
       "starbucks"; "dominos"; "kfc"; "subway"; "tea"; "juice"; "ice cream";
       "food delivery"; "takeout"; "dine"; "eating out"; "fast food"]);
    ("Transport",
      ["uber"; "lyft"; "ola"; "taxi"; "cab"; "bus"; "train"; "metro";
       "fuel"; "petrol"; "gas"; "diesel"; "parking"; "toll"; "car";
       "bike"; "motorcycle"; "airline"; "flight"; "airport"; "travel";
       "commute"; "ride"; "transport"; "auto"; "rickshaw"; "fare"]);
    ("Entertainment",
      ["movie"; "cinema"; "netflix"; "spotify"; "amazon prime"; "disney";
       "hulu"; "youtube"; "gaming"; "games"; "concert"; "show"; "party";
       "club"; "bar"; "pub"; "theatre"; "music"; "books"; "magazine";
       "subscription"; "streaming"; "fun"; "leisure"; "hobby"]);
    ("Utilities",
      ["electricity"; "electric bill"; "water bill"; "gas bill"; "internet";
       "wifi"; "broadband"; "phone bill"; "mobile recharge"; "cable";
       "utility"; "rent"; "housing"; "maintenance"; "repair"; "plumber";
       "electrician"; "home"; "apartment"; "heating"; "cooling"]);
    ("Shopping",
      ["amazon"; "flipkart"; "walmart"; "target"; "mall"; "clothes";
       "shoes"; "electronics"; "gadget"; "phone"; "laptop"; "furniture";
       "home decor"; "appliance"; "gift"; "present"; "shopping"; "store";
       "retail"; "online shopping"; "fashion"; "accessories"; "jewelry"]);
    ("Healthcare",
      ["hospital"; "doctor"; "clinic"; "medicine"; "pharmacy"; "medical";
       "health"; "dental"; "dentist"; "eye"; "optician"; "glasses";
       "prescription"; "therapy"; "gym"; "fitness"; "workout"; "yoga";
       "insurance"; "health insurance"; "checkup"; "lab"; "test"]);
    ("Education",
      ["school"; "college"; "university"; "course"; "tuition"; "books";
       "textbook"; "udemy"; "coursera"; "learning"; "training"; "workshop";
       "seminar"; "certification"; "exam"; "study"; "education"; "class";
       "tutorial"; "online course"; "degree"; "diploma"]);
    ("Savings",
      ["savings"; "investment"; "mutual fund"; "stock"; "fixed deposit";
       "fd"; "rd"; "recurring deposit"; "retirement"; "pension"; "emi";
       "loan payment"; "sip"; "bonds"; "gold"; "crypto"; "bitcoin"]);
    ("Salary",
      ["salary"; "paycheck"; "wages"; "income"; "pay"; "compensation";
       "bonus"; "commission"; "earnings"]);
    ("Freelance",
      ["freelance"; "consulting"; "contract"; "project payment"; "gig";
       "side hustle"; "client payment"; "invoice"; "hourly"]);
    ("Investment",
      ["dividend"; "interest"; "returns"; "capital gains"; "profit";
       "investment income"; "rental income"; "passive income"]);
    ("Gift",
      ["gift"; "present"; "birthday money"; "cash gift"; "received";
       "wedding gift"; "bonus gift"]) ].

(** [_prepare_training_data]: six texts per keyword, each labelled with the
    category of the keyword. *)
Definition variations (keyword : string) : list string :=
  [ keyword;
    Text.upper keyword;
    Text.capitalize keyword;
    ("paid for " ++ keyword)%string;
    (keyword ++ " payment")%string;
    (keyword ++ " expense")%string ].

Definition _prepare_training_data : list string * list string :=
  fold_left
    (fun '(texts, labels) '(category, keywords) =>
       fold_left
         (fun '(texts, labels) keyword =>
            (texts ++ variations keyword, labels ++ repeat category 6))
         keywords (texts, labels))
    TRAINING_DATA ([], []).

(** [_clean_text]: lower-case, every character outside [a-zA-Z0-9\s]
    replaced by a space, then [' '.join(text.split())]. *)
Definition keep_or_space (c : ascii) : ascii :=
  if Text.is_alnum c || Text.is_space c then c else " "%char.

Definition _clean_text (text : string) : string :=
  let text := Text.lower text in
  let text := Text.smap keep_or_space text in
  Text.join " " (Text.split text).

(** The inner loop of [_keyword_match]: some keyword of the list occurs in
    the text. *)
Definition any_keyword_in (keywords : list string) (text_lower : string) : bool :=
  existsb (fun keyword => Text.contains (Text.lower keyword) text_lower) keywords.

Fixpoint keyword_scan (table : list (string * list string)) (text_lower : string)
  : option string :=
  match table with
  | [] => None
  | (category, keywords) :: rest =>
      if any_keyword_in keywords text_lower then Some category
      else keyword_scan rest text_lower
  end.

Definition _keyword_match (text : string) : option string :=
  keyword_scan TRAINING_DATA (Text.lower text).

(** The fitted scikit-learn pipeline, as far as [predict] uses it: absent
    ([self.model] is [None]), or a function from the cleaned text to the
    predicted label with the largest posterior, [None] when it raises. *)
Definition classifier := option (string -> option (string * Q)).

Definition confidence_keyword : Q := 95 # 100.

Definition predict (model : classifier) (description : option string) : string * Q :=
  match description with
  | None => ("Other", 0%Q)
  | Some description =>
      if String.eqb description EmptyString || String.eqb (Text.strip description) EmptyString
      then ("Other", 0%Q)
      else
        let cleaned := _clean_text description in
        match _keyword_match cleaned with
        | Some category => (category, confidence_keyword)
        | None =>
            match model with
            | Some m =>
                match m cleaned with
                | Some (prediction, confidence) => (prediction, confidence)
                | None => ("Other", 0%Q)
                end
            | None => ("Other", 0%Q)
            end
        end
  end.

End Categorizer.

(** ** Rationals, dates and raised exceptions *)

Definition Qsum (l : list Q) : Q := fold_left Qplus l 0%Q.

Definition Qltb (a b : Q) : bool := negb (Qle_bool b a).

(** [pandas.Series.mean] and [numpy.mean] of a non-empty series. *)
Definition Qmean (l : list Q) : Q := Qsum l / inject_Z (Z.of_nat (length l)).

(** Python [round(x)]: to the nearest integer, a tie going to the even one. *)
Definition round_half_even (q : Q) : Z :=
  let f := Qfloor q in
  let r := (q - inject_Z f)%Q in
  match Qcompare r (1 # 2) with
  | Lt => f
  | Gt => (f + 1)%Z
  | Eq => if Z.even f then f else (f + 1)%Z
  end.

(** Python [round(x, 2)] *)
Definition round2 (q : Q) : Q := round_half_even (q * 100) # 100.

Record date := mkDate { year : Z; month : Z; day : Z }.

(** Dates are stored as ISO text and compared as such: year, month, day. *)
Definition date_leb (a b : date) : bool :=
  (year a <? year b)%Z
  || ((year a =? year b)%Z
      && ((month a <? month b)%Z
          || ((month a =? month b)%Z && (day a <=? day b)%Z))).

(** [strftime('%Y-%m', d)] *)
Definition month_key (d : date) : Z * Z := (year d, month d).

Definition month_key_eqb (a b : Z * Z) : bool :=
  (a.1 =? b.1)%Z && (a.2 =? b.2)%Z.

Definition month_key_ltb (a b : Z * Z) : bool :=
  (a.1 <? b.1)%Z || ((a.1 =? b.1)%Z && (a.2 <? b.2)%Z).

(** [d.replace(day=1)] *)
Definition first_of_month (d : date) : date := mkDate (year d) (month d) 1.

Definition is_leap (y : Z) : bool :=
  ((y mod 4 =? 0) && negb (y mod 100 =? 0) || (y mod 400 =? 0))%Z.

Definition days_in_month (y m : Z) : Z :=
  if (m =? 2)%Z then (if is_leap y then 29 else 28)
  else if ((m =? 4) || (m =? 6) || (m =? 9) || (m =? 11))%Z then 30
  else 31.

(** SQLite's [date('now', '-n months')]: the month is moved back, and a day
    past the end of the month reached overflows into the next month. *)
Definition months_before (today : date) (n : Z) : date :=
  let total := (year today * 12 + (month today - 1) - n)%Z in
  let y := (total / 12)%Z in
  let m := (total mod 12 + 1)%Z in
  let dim := days_in_month y m in
  if (dim <? day today)%Z then mkDate y (m + 1) (day today - dim)
  else mkDate y m (day today).

Inductive exn : Type :=
| IndexError      (* an index into an empty list *)
| TypeError       (* numpy: shapes of values and weights differ *)
| ZeroDivisionError (* numpy: the weights sum to zero *)
| AttributeError  (* a method called on None *)
| RemoteError.    (* the remote call failed or timed out *)

Inductive outcome (A : Type) : Type :=
| Ok (a : A)
| Raise (e : exn).
Arguments Ok {A} a.
Arguments Raise {A} e.

(** Stable insertion sort: [x] goes after the elements that are not above
    it, so rows that compare equal keep their storage order. *)
Section Sorting.
Context {A : Type} (leb : A -> A -> bool).

Fixpoint insert_sorted (x : A) (l : list A) : list A :=
  match l with
  | [] => [x]
  | y :: l' => if leb y x then y :: insert_sorted x l' else x :: l
  end.

Definition sort_by (l : list A) : list A :=
  fold_left (fun acc x => insert_sorted x acc) l [].
End Sorting.

(** ** database/db_manager.py *)

Module Db.

(** The [type] of a category and [transaction_type] of a transaction: the
    callers only store ['expense'] and ['income']. *)
Inductive ttype : Type := Expense | Income.

Definition ttype_eqb (a b : ttype) : bool :=
  match a, b with
  | Expense, Expense | Income, Income => true
  | _, _ => false
  end.

(** ['expense' < 'income'] *)
Definition ttype_rank (a : ttype) : Z :=
  match a with Expense => 0 | Income => 1 end.

Record category := mkCategory {
  c_id : Z;
  c_name : string;
  c_type : ttype;
  c_icon : string;
  c_color : string;
  c_user : option Z          (* NULL for a category shared by all users *)
}.

Record transaction := mkTransaction {
  t_id : Z;
  t_amount : Q;
  t_description : string;
  t_category : Z;
  t_type : ttype;
  t_date : date;
  t_user : Z
}.

(** The tables. [categories] and [transactions] are in row order with an
    AUTOINCREMENT counter each; [budgets] is keyed by its UNIQUE
    [(category_id, user_id)] and [settings] by its primary key
    [(key, user_id)]. *)
Record db := mkDb {
  categories : list category;
  next_category_id : Z;
  transactions : list transaction;
  next_transaction_id : Z;
  budgets : gmap (Z * Z) Q;
  settings : gmap (string * option Z) string
}.

Definition empty : db := mkDb [] 1 [] 1 ∅ ∅.

Definition option_Z_eqb (a b : option Z) : bool :=
  match a, b with
  | Some x, Some y => (x =? y)%Z
  | None, None => true
  | _, _ => false
  end.

(** [(user_id = ? OR user_id IS NULL)] *)
Definition visible_to (user_id : Z) (c : category) : bool :=
  match c_user c with
  | Some u => (u =? user_id)%Z
  | None => true
  end.

Definition insert_category (d : db) (name : string) (ty : ttype)
    (icon color : string) (user_id : option Z) : db :=
  mkDb (categories d ++ [mkCategory (next_category_id d) name ty icon color user_id])
       (next_category_id d + 1)
       (transactions d) (next_transaction_id d) (budgets d) (settings d).

Definition default_categories : list (string * ttype * string * string) :=
  [ ("Food & Dining", Expense, "🍔", "#FF6B6B");
    ("Transport", Expense, "🚗", "#4ECDC4");
    ("Entertainment", Expense, "🎬", "#45B7D1");
    ("Utilities", Expense, "💡", "#96CEB4");
    ("Shopping", Expense, "🛍️", "#FFEAA7");
    ("Healthcare", Expense, "🏥", "#DDA0DD");
    ("Education", Expense, "📚", "#98D8C8");
    ("Savings", Expense, "💰", "#F7DC6F");
    ("Other", Expense, "📦", "#BDC3C7");
    ("Salary", Income, "💵", "#2ECC71");
    ("Freelance", Income, "💻", "#3498DB");
    ("Investment", Income, "📈", "#9B59B6");
    ("Gift", Income, "🎁", "#E74C3C");
    ("Other Income", Income, "💸", "#1ABC9C") ].

(** [_seed_categories]: the defaults are inserted for [user_id] when it has
    no category row of its own yet. *)
Definition _seed_categories (user_id : option Z) (d : db) : db :=
  if existsb (fun c => option_Z_eqb (c_user c) user_id) (categories d) then d
  else fold_left
         (fun d '(name, ty, icon, color) => insert_category d name ty icon color user_id)
         default_categories d.

(** A fresh database, as [DatabaseManager.__init__] leaves it. *)
Definition init : db := _seed_categories None empty.

(** [ORDER BY type, name] *)
Definition category_leb (a b : category) : bool :=
  (ttype_rank (c_type a) <? ttype_rank (c_type b))%Z
  || (ttype_eqb (c_type a) (c_type b)
      && match String.compare (c_name a) (c_name b) with
         | Gt => false
         | _ => true
         end).

Definition get_categories (category_type : option ttype) (user_id : Z) (d : db)
  : list category :=
  let rows :=
    List.filter (fun c => visible_to user_id c
                     && match category_type with
                        | Some ty => ttype_eqb (c_type c) ty
                        | None => true
                        end)
           (categories d) in
  sort_by category_leb rows.

(** [get_category_by_name] with a user: [fetchone] of the matching rows. *)
Definition get_category_by_name (name : string) (user_id : Z) (d : db)
  : option category :=
  find (fun c => String.eqb (c_name c) name && visible_to user_id c) (categories d).

Definition add_category (name : string) (category_type : ttype) (user_id : Z)
    (icon color : string) (d : db) : Z * db :=
  (next_category_id d, insert_category d name category_type icon color (Some user_id)).

(** [add_transaction]: the row is appended and its id returned. *)
Definition add_transaction (amount : Q) (description : string) (category_id : Z)
    (transaction_type : ttype) (transaction_date : date) (user_id : Z) (d : db)
  : Z * db :=
  (next_transaction_id d,
   mkDb (categories d) (next_category_id d)
        (transactions d ++
           [mkTransaction (next_transaction_id d) amount description category_id
                          transaction_type transaction_date user_id])
        (next_transaction_id d + 1) (budgets d) (settings d)).

Definition in_period (start_date end_date : option date) (t : transaction) : bool :=
  match start_date with Some s => date_leb s (t_date t) | None => true end
  && match end_date with Some e => date_leb (t_date t) e | None => true end.

(** [ORDER BY t.date DESC, t.created_at DESC]; rows are created in the
    order of their ids. *)
Definition newer_first (a b : transaction) : bool :=
  negb (date_leb (t_date a) (t_date b))
  || (date_leb (t_date b) (t_date a) && (t_id b <=? t_id a)%Z).

Definition get_transactions (user_id : Z) (limit : option nat) (d : db)
  : list transaction :=
  let rows := sort_by newer_first
                (List.filter (fun t => (t_user t =? user_id)%Z) (transactions d)) in
  match limit with
  | Some n => firstn n rows
  | None => rows
  end.

Record summary := mkSummary { s_income : Q; s_expense : Q; s_balance : Q }.

Definition total_of (ty : ttype) (rows : list transaction) : Q :=
  Qsum (map t_amount (List.filter (fun t => ttype_eqb (t_type t) ty) rows)).

Definition get_summary (user_id : Z) (start_date end_date : option date) (d : db)
  : summary :=
  let rows := List.filter (fun t => (t_user t =? user_id)%Z && in_period start_date end_date t)
                     (transactions d) in
  let income := total_of Income rows in
  let expense := total_of Expense rows in
  mkSummary income expense (income - expense).

Record breakdown_item := mkBreakdown {
  b_id : Z; b_name : string; b_icon : string; b_color : string;
  b_total : Q; b_count : nat
}.

(** [ORDER BY total DESC] *)
Definition total_desc (a b : breakdown_item) : bool := Qle_bool (b_total b) (b_total a).

(** [get_category_breakdown]: one row per category that has a transaction
    of the type in the period (inner join, grouped by category id). *)
Definition get_category_breakdown (user_id : Z) (start_date end_date : option date)
    (transaction_type : ttype) (d : db) : list breakdown_item :=
  let rows := List.filter (fun t => ttype_eqb (t_type t) transaction_type
                               && (t_user t =? user_id)%Z
                               && in_period start_date end_date t)
                     (transactions d) in
  let groups :=
    flat_map
      (fun c =>
         let mine := List.filter (fun t => (t_category t =? c_id c)%Z) rows in
         match mine with
         | [] => []
         | _ => [mkBreakdown (c_id c) (c_name c) (c_icon c) (c_color c)
                             (Qsum (map t_amount mine)) (length mine)]
         end)
      (categories d) in
  sort_by total_desc groups.

Record monthly := mkMonthly { m_month : Z * Z; m_income : Q; m_expense : Q }.

(** The grouped rows of the query of [get_monthly_trends]:
    [(month, transaction_type, SUM(amount))], ordered by month. *)
Definition monthly_totals (user_id : Z) (cutoff : date) (d : db)
  : list (Z * Z * ttype * Q) :=
  let rows := List.filter (fun t => (t_user t =? user_id)%Z && date_leb cutoff (t_date t))
                     (transactions d) in
  let months :=
    sort_by (fun a b => negb (month_key_ltb b a))
      (fold_left (fun acc t =>
                    if existsb (month_key_eqb (month_key (t_date t))) acc then acc
                    else acc ++ [month_key (t_date t)])
                 rows []) in
  flat_map
    (fun m =>
       flat_map
         (fun ty =>
            let mine := List.filter (fun t => month_key_eqb (month_key (t_date t)) m
                                         && ttype_eqb (t_type t) ty) rows in
            match mine with
            | [] => []
            | _ => [(m, ty, Qsum (map t_amount mine))]
            end)
         [Expense; Income])
    months.

(** The pivot loop: a month seen for the first time gets a row of zeros,
    then the column of the type is set. *)
Fixpoint pivot_set (m : Z * Z) (ty : ttype) (total : Q) (data : list monthly)
  : list monthly :=
  let put row :=
    match ty with
    | Income => mkMonthly (m_month row) total (m_expense row)
    | Expense => mkMonthly (m_month row) (m_income row) total
    end in
  match data with
  | [] => [put (mkMonthly m 0 0)]
  | row :: rest =>
      if month_key_eqb (m_month row) m then put row :: rest
      else row :: pivot_set m ty total rest
  end.

Definition get_monthly_trends (user_id : Z) (months : Z) (today : date) (d : db)
  : list monthly :=
  fold_left (fun data '(m, ty, total) => pivot_set m ty total data)
            (monthly_totals user_id (months_before today months) d) [].

(** [set_budget]: insert, or on conflict update the limit. *)
Definition set_budget (category_id user_id : Z) (monthly_limit : Q) (d : db) : db :=
  mkDb (categories d) (next_category_id d) (transactions d) (next_transaction_id d)
       (<[(category_id, user_id) := monthly_limit]> (budgets d)) (settings d).

Record budget_row := mkBudgetRow {
  br_category_id : Z; br_user_id : Z; br_monthly_limit : Q;
  br_category_name : string; br_category_icon : string
}.

(** [get_budgets]: the budgets of the user joined with their category. *)
Definition get_budgets (user_id : Z) (d : db) : list budget_row :=
  flat_map
    (fun c =>
       match budgets d !! (c_id c, user_id) with
       | Some l => [mkBudgetRow (c_id c) user_id l (c_name c) (c_icon c)]
       | None => []
       end)
    (categories d).

Record budget_status := mkBudgetStatus {
  bs_id : Z; bs_name : string; bs_icon : string; bs_color : string;
  bs_monthly_limit : Q; bs_spent : Q; bs_remaining : Q; bs_percentage : Q
}.

(** [COALESCE(SUM(t.amount), 0)] over the expenses of the user in the
    category during the month. *)
Definition spent_in (category_id user_id : Z) (month : Z * Z) (d : db) : Q :=
  Qsum (map t_amount
          (List.filter (fun t => (t_category t =? category_id)%Z
                            && ttype_eqb (t_type t) Expense
                            && (t_user t =? user_id)%Z
                            && month_key_eqb (month_key (t_date t)) month)
                  (transactions d))).

Definition budget_status_row (c : category) (monthly_limit spent : Q) : budget_status :=
  mkBudgetStatus (c_id c) (c_name c) (c_icon c) (c_color c) monthly_limit spent
    (monthly_limit - spent)
    (if Qltb 0 monthly_limit then spent / monthly_limit * 100 else 0).

(** [get_budget_status]: the expense categories visible to the user that
    have a budget of the user, with the derived fields. *)
Definition get_budget_status (user_id : Z) (month : Z * Z) (d : db)
  : list budget_status :=
  flat_map
    (fun c =>
       if visible_to user_id c && ttype_eqb (c_type c) Expense then
         match budgets d !! (c_id c, user_id) with
         | Some monthly_limit =>
             [budget_status_row c monthly_limit (spent_in (c_id c) user_id month d)]
         | None => []
         end
       else [])
    (categories d).

Definition get_setting (key : string) (user_id : Z) (d : db) : option string :=
  settings d !! (key, Some user_id).

Definition set_setting (key value : string) (user_id : Z) (d : db) : db :=
  mkDb (categories d) (next_category_id d) (transactions d) (next_transaction_id d)
       (budgets d) (<[(key, Some user_id) := value]> (settings d)).

(** [get_category_by_id] with a user *)
Definition get_category_by_id (category_id user_id : Z) (d : db) : option category :=
  find (fun c => (c_id c =? category_id)%Z && visible_to user_id c) (categories d).

(** The row an id and a user designate: [WHERE id = ? AND user_id = ?]. *)
Definition designates (transaction_id user_id : Z) (t : transaction) : bool :=
  (t_id t =? transaction_id)%Z && (t_user t =? user_id)%Z.

(** [get_transaction_by_id] with a user: the row with, by the left join,
    the category of its [category_id] when there is one. *)
Definition get_transaction_by_id (transaction_id user_id : Z) (d : db)
  : option (transaction * option category) :=
  (fun t => (t, find (fun c => (c_id c =? t_category t)%Z) (categories d)))
    <$> find (designates transaction_id user_id) (transactions d).

(** The optional arguments of [update_transaction]. *)
Record changes := mkChanges {
  new_amount : option Q;
  new_description : option string;
  new_category_id : option Z;
  new_date : option date
}.

Definition no_change (ch : changes) : bool :=
  match new_amount ch, new_description ch, new_category_id ch, new_date ch with
  | None, None, None, None => true
  | _, _, _, _ => false
  end.

Definition apply_changes (ch : changes) (t : transaction) : transaction :=
  mkTransaction (t_id t)
    (default (t_amount t) (new_amount ch))
    (default (t_description t) (new_description ch))
    (default (t_category t) (new_category_id ch))
    (t_type t)
    (default (t_date t) (new_date ch))
    (t_user t).

(** [update_transaction]: without a field to set it returns [False];
    otherwise the designated row is updated and the result tells whether
    there was one. *)
Definition update_transaction (transaction_id user_id : Z) (ch : changes) (d : db)
  : bool * db :=
  if no_change ch then (false, d)
  else
    (existsb (designates transaction_id user_id) (transactions d),
     mkDb (categories d) (next_category_id d)
          (map (fun t => if designates transaction_id user_id t
                         then apply_changes ch t else t)
               (transactions d))
          (next_transaction_id d) (budgets d) (settings d)).

(** [delete_transaction]: the designated row is deleted and the result
    tells whether there was one. *)
Definition delete_transaction (transaction_id user_id : Z) (d : db) : bool * db :=
  (existsb (designates transaction_id user_id) (transactions d),
   mkDb (categories d) (next_category_id d)
        (List.filter (fun t => negb (designates transaction_id user_id t))
                     (transactions d))
        (next_transaction_id d) (budgets d) (settings d)).

(** [clear_all_data]: the transactions and the budgets of the user are
    deleted. *)
Definition clear_all_data (user_id : Z) (d : db) : db :=
  mkDb (categories d) (next_category_id d)
       (List.filter (fun t => negb (t_user t =? user_id)%Z) (transactions d))
       (next_transaction_id d)
       (filter (fun kv : Z * Z * Q => kv.1.2 <> user_id) (budgets d))
       (settings d).

End Db.

(** ** ml/predictor.py *)

Module Predictor.

Local Open Scope Q_scope.

(** The texts of [_get_prediction_message], with the amount they format. *)
Inductive prediction_message : Type :=
| TrendingUpward (expense : Q)
| SpendingDecreasing (expense : Q)
| SpendingStable (expense : Q)
| AddMoreTransactions
| NotEnoughHistory.

(** The dict returned by [predict_next_month_expenses]; a key that the
    dict does not have is [None]. *)
Record prediction := mkPrediction {
  predicted_expense : Q;
  predicted_income : Q;
  predicted_savings : option Q;
  confidence : string;
  trend : string;
  message : prediction_message
}.

Definition ramp : list Q := [1; 3 # 2; 2; 5 # 2; 3; 7 # 2]%Q.

(** [weights = np.array(ramp)[:n]; weights = weights / weights.sum()] *)
Definition weights_for (n : nat) : list Q :=
  let weights := firstn n ramp in
  map (fun w => w / Qsum weights) weights.

Fixpoint products (values weights : list Q) : list Q :=
  match values, weights with
  | v :: values', w :: weights' => (v * w) :: products values' weights'
  | _, _ => []
  end.

(** [np.average(values, weights=weights)] *)
Definition np_average (values weights : list Q) : outcome Q :=
  if negb (length values =? length weights)%nat then Raise TypeError
  else if Qeq_bool (Qsum weights) 0 then Raise ZeroDivisionError
  else Ok (Qsum (products values weights) / Qsum weights).

(** [series.head(3)] and [series.tail(3)] *)
Definition head3 (l : list Q) : list Q := firstn 3 l.
Definition tail3 (l : list Q) : list Q := skipn (length l - 3)%nat l.

(** Lines 59-70: the trend of the monthly expenses. *)
Definition classify_trend (expenses : list Q) : string :=
  if (3 <=? length expenses)%nat then
    let recent_expenses := Qmean (tail3 expenses) in
    let older_expenses := Qmean (head3 expenses) in
    if Qltb (older_expenses * (11 # 10)) recent_expenses then "increasing"
    else if Qltb recent_expenses (older_expenses * (9 # 10)) then "decreasing"
    else "stable"
  else "insufficient_data".

Definition confidence_of (n : nat) : string :=
  if (5 <=? n)%nat then "high" else if (3 <=? n)%nat then "medium" else "low".

Definition _get_prediction_message (trend : string) (expense income : Q)
  : prediction_message :=
  if String.eqb trend "increasing" then TrendingUpward expense
  else if String.eqb trend "decreasing" then SpendingDecreasing expense
  else if String.eqb trend "stable" then SpendingStable expense
  else AddMoreTransactions.

(** The body of [predict_next_month_expenses] once the monthly aggregates
    [df] are fetched; the frame of [get_monthly_trends] always has its
    income and expense columns, with no missing value. *)
Definition predict_from (df : list Db.monthly) : outcome prediction :=
  if (length df <? 2)%nat then
    Ok (mkPrediction 0 0 None "low" "insufficient_data" NotEnoughHistory)
  else
    let weights := weights_for (length df) in
    match np_average (map Db.m_expense df) weights with
    | Raise e => Raise e
    | Ok predicted_expense =>
        match np_average (map Db.m_income df) weights with
        | Raise e => Raise e
        | Ok predicted_income =>
            let trend := classify_trend (map Db.m_expense df) in
            Ok (mkPrediction
                  (round2 predicted_expense)
                  (round2 predicted_income)
                  (Some (round2 (predicted_income - predicted_expense)))
                  (confidence_of (length df))
                  trend
                  (_get_prediction_message trend predicted_expense predicted_income))
        end
    end.

Definition predict_next_month_expenses (user_id : Z) (today : date) (d : Db.db)
  : outcome prediction :=
  predict_from (Db.get_monthly_trends user_id 6 today d).

(** The texts of the alerts, with the amounts they format. *)
Inductive alert_message : Type :=
| BudgetExceeded (spent monthly_limit : Q)
| ApproachingLimit (percentage : Q)
| HighSpending (total : Q).

Record alert := mkAlert {
  a_category : string;
  a_icon : string;
  a_type : string;
  a_severity : string;
  a_message : alert_message;
  a_percentage : Q
}.

(** First loop of [detect_overspending], over the budget status. *)
Definition budget_alerts (budget_status : list Db.budget_status) : list alert :=
  flat_map
    (fun item =>
       let percentage := Db.bs_percentage item in
       if Qle_bool 100 percentage then
         [mkAlert (Db.bs_name item) (Db.bs_icon item) "budget_exceeded" "high"
                  (BudgetExceeded (Db.bs_spent item) (Db.bs_monthly_limit item))
                  percentage]
       else if Qle_bool 80 percentage then
         [mkAlert (Db.bs_name item) (Db.bs_icon item) "budget_warning" "medium"
                  (ApproachingLimit percentage) percentage]
       else [])
    budget_status.

(** Second loop: a category above half the average monthly expense is
    appended unless an alert already carries its name. *)
Definition spike_alerts (avg_monthly_expense : Q)
    (current_breakdown : list Db.breakdown_item) (alerts : list alert) : list alert :=
  fold_left
    (fun alerts cat =>
       if Qltb (avg_monthly_expense * (5 # 10)) (Db.b_total cat) then
         if existsb (String.eqb (Db.b_name cat)) (map a_category alerts) then alerts
         else alerts ++ [mkAlert (Db.b_name cat) (Db.b_icon cat) "high_spending" "low"
                                 (HighSpending (Db.b_total cat)) 0]
       else alerts)
    current_breakdown alerts.

Definition detect_overspending (user_id : Z) (today : date) (d : Db.db) : list alert :=
  let alerts := budget_alerts (Db.get_budget_status user_id (month_key today) d) in
  let current_breakdown :=
    Db.get_category_breakdown user_id (Some (first_of_month today)) None Db.Expense d in
  let historical_df := Db.get_monthly_trends user_id 3 today d in
  match historical_df with
  | [] => alerts
  | _ => spike_alerts (Qmean (map Db.m_expense historical_df)) current_breakdown alerts
  end.

(** The recommendations of [get_recommendations], with the values their
    texts format. *)
Inductive advice : Type :=
| IncreaseYourSavings (savings_ratio : Q)
| GreatSavingsRate (savings_ratio : Q)
| ReviewSpending (name : string) (top_percentage : Q)
| SetUpBudgets
| WatchYourSpendingTrend
| BuildEmergencyFund.

Record recommendation := mkRecommendation {
  r_icon : string;
  r_advice : advice;
  r_priority : string
}.

(** Recommendation 1: the savings ratio of the month. *)
Definition savings_advice (summary : Db.summary) : list recommendation :=
  if Qltb 0 (Db.s_income summary) then
    let savings_ratio :=
      (Db.s_income summary - Db.s_expense summary) / Db.s_income summary * 100 in
    if Qltb savings_ratio 10 then
      [mkRecommendation "💰" (IncreaseYourSavings savings_ratio) "high"]
    else if Qle_bool 20 savings_ratio then
      [mkRecommendation "🌟" (GreatSavingsRate savings_ratio) "low"]
    else []
  else [].

(** Recommendation 2: the share of the top category. *)
Definition top_category_advice (breakdown : list Db.breakdown_item)
  : list recommendation :=
  match breakdown with
  | [] => []
  | top_category :: _ =>
      let total_expense := Qsum (map Db.b_total breakdown) in
      if Qltb 0 total_expense then
        let top_percentage := Db.b_total top_category / total_expense * 100 in
        if Qltb 40 top_percentage then
          [mkRecommendation "⚠️" (ReviewSpending (Db.b_name top_category) top_percentage)
                            "medium"]
        else []
      else []
  end.

Definition get_recommendations (user_id : Z) (today : date) (d : Db.db)
  : outcome (list recommendation) :=
  let current_month_start := first_of_month today in
  let summary := Db.get_summary user_id (Some current_month_start) None d in
  let breakdown :=
    Db.get_category_breakdown user_id (Some current_month_start) None Db.Expense d in
  match predict_next_month_expenses user_id today d with
  | Raise e => Raise e
  | Ok predictions =>
      Ok (savings_advice summary
          ++ top_category_advice breakdown
          ++ match Db.get_budgets user_id d with
             | [] => [mkRecommendation "📋" SetUpBudgets "medium"]
             | _ => []
             end
          ++ (if String.eqb (trend predictions) "increasing"
              then [mkRecommendation "📈" WatchYourSpendingTrend "high"] else [])
          ++ (if Qltb 0 (Db.s_balance summary)
              then [mkRecommendation "🏦" BuildEmergencyFund "low"] else []))
  end.

End Predictor.

(** ** The regular expressions of ml/assistant.py *)

Module Regex.

(** The fragment of Python's [re] the patterns use. Repetition is only
    applied to character classes, so [Star] takes the class. Alternation,
    [Opt] and [Star] are tried in Python's order (left alternative first,
    longest repetition first) with backtracking. *)
Inductive regex : Type :=
| Lit (s : string)
| Class (p : ascii -> bool)
| Seq (r1 r2 : regex)
| Alt (r1 r2 : regex)
| Opt (r : regex)
| Star (p : ascii -> bool)
| Group (n : nat) (r : regex)
| Bol
| Eol.

Definition Plus (p : ascii -> bool) : regex := Seq (Class p) (Star p).

Fixpoint seq (rs : list regex) : regex :=
  match rs with
  | [] => Lit EmptyString
  | [r] => r
  | r :: rs' => Seq r (seq rs')
  end.

Fixpoint alt (rs : list regex) : regex :=
  match rs with
  | [] => Class (fun _ => false)
  | [r] => r
  | r :: rs' => Alt r (alt rs')
  end.

Definition words (ws : list string) : regex := alt (map Lit ws).

Definition captures := list (nat * string).

Definition group (n : nat) (caps : captures) : option string :=
  snd <$> find (fun '(m, _) => (m =? n)%nat) caps.

(** A literal read off the front of [s]; the rest of [s] when it is there. *)
Fixpoint literal (icase : bool) (l s : string) : option string :=
  match l, s with
  | EmptyString, _ => Some s
  | String a l', String b s' =>
      if (if icase then Ascii.eqb (Text.lower_char a) (Text.lower_char b)
          else Ascii.eqb a b)
      then literal icase l' s' else None
  | String _ _, EmptyString => None
  end.

Fixpoint take_string (n : nat) (s : string) : string :=
  match n, s with
  | S n', String c s' => String c (take_string n' s')
  | _, _ => EmptyString
  end.

Section Matcher.
Context {R : Type}.

(** A continuation receives the position reached, the text that is left
    and the groups captured so far. *)
Definition cont := nat -> string -> captures -> option R.

Fixpoint star (p : ascii -> bool) (pos : nat) (s : string) (caps : captures)
    (k : cont) : option R :=
  match s with
  | String c s' =>
      if p c then
        match star p (S pos) s' caps k with
        | Some r => Some r
        | None => k pos s caps
        end
      else k pos s caps
  | EmptyString => k pos s caps
  end.

Fixpoint run (icase : bool) (r : regex) (pos : nat) (s : string)
    (caps : captures) (k : cont) : option R :=
  match r with
  | Lit l =>
      match literal icase l s with
      | Some s' => k (pos + String.length l)%nat s' caps
      | None => None
      end
  | Class p =>
      match s with
      | String c s' => if p c then k (S pos) s' caps else None
      | EmptyString => None
      end
  | Seq r1 r2 =>
      run icase r1 pos s caps (fun pos' s' caps' => run icase r2 pos' s' caps' k)
  | Alt r1 r2 =>
      match run icase r1 pos s caps k with
      | Some res => Some res
      | None => run icase r2 pos s caps k
      end
  | Opt r1 =>
      match run icase r1 pos s caps k with
      | Some res => Some res
      | None => k pos s caps
      end
  | Star p => star p pos s caps k
  | Group n r1 =>
      run icase r1 pos s caps
        (fun pos' s' caps' => k pos' s' ((n, take_string (pos' - pos) s) :: caps'))
  | Bol => if (pos =? 0)%nat then k pos s caps else None
  | Eol =>
      if String.eqb s EmptyString || String.eqb s (String "010"%char EmptyString)
      then k pos s caps else None
  end.
End Matcher.

Record found := mkFound { f_start : nat; f_end : nat; f_rest : string; f_groups : captures }.

Fixpoint search_from (icase : bool) (r : regex) (pos : nat) (s : string)
  : option found :=
  match run icase r pos s [] (fun pos' s' caps => Some (mkFound pos pos' s' caps)) with
  | Some m => Some m
  | None =>
      match s with
      | String _ s' => search_from icase r (S pos) s'
      | EmptyString => None
      end
  end.

(** [re.search(pattern, s)], with [re.IGNORECASE] when [icase]. *)
Definition search (icase : bool) (r : regex) (s : string) : option found :=
  search_from icase r 0 s.

(** [re.sub(pattern, '', s)] for a pattern that matches no empty text:
    every match, left to right, is removed. *)
Fixpoint remove_all (fuel : nat) (r : regex) (s : string) : string :=
  match fuel with
  | O => s
  | S fuel' =>
      match search false r s with
      | Some m => take_string (f_start m) s ++ remove_all fuel' r (f_rest m)
      | None => s
      end
  end.

Definition sub_empty (r : regex) (s : string) : string :=
  remove_all (S (String.length s)) r s.

Definition any_char (c : ascii) : bool := negb (Text.code c =? 10)%nat.

Definition ws : regex := Star Text.is_space.            (* \s* *)
Definition ws1 : regex := Plus Text.is_space.           (* \s+ *)
Definition rest (n : nat) : regex := Group n (Plus any_char).   (* (.+) *)

(** [(?:₹|rs\.?|inr)?] *)
Definition currency : regex :=
  Opt (alt [Lit "₹"; Seq (Lit "rs") (Opt (Lit ".")); Lit "inr"]).

(** [\d+(?:\.\d{1,2})?] *)
Definition number : regex :=
  Seq (Plus Text.is_digit)
      (Opt (seq [Lit "."; Class Text.is_digit; Opt (Class Text.is_digit)])).

End Regex.

(** [float(text)] for decimal text: optional sign, digits with an optional
    fraction, surrounding spaces allowed; [None] is [ValueError]. Exponents,
    underscores, [inf] and [nan] are not read. *)
Module Float.

Fixpoint read_digits (s : string) (acc : Z) (n : nat) : Z * nat * string :=
  match s with
  | String c s' =>
      if Text.is_digit c
      then read_digits s' (acc * 10 + Z.of_nat (Text.code c - 48)) (S n)
      else (acc, n, s)
  | EmptyString => (acc, n, s)
  end.

Definition unsigned (s : string) : option Q :=
  let '(i, ni, after) := read_digits s 0 0 in
  match after with
  | EmptyString => if (0 <? ni)%nat then Some (inject_Z i) else None
  | String c after' =>
      if Ascii.eqb c "."%char then
        let '(f, nf, tail) := read_digits after' 0 0 in
        if String.eqb tail EmptyString && (0 <? ni + nf)%nat
        then Some (Qmake (i * 10 ^ Z.of_nat nf + f) (Z.to_pos (10 ^ Z.of_nat nf)))
        else None
      else None
  end.

Definition of_string (s : string) : option Q :=
  match Text.strip s with
  | String c s' =>
      if Ascii.eqb c "-"%char then Qopp <$> unsigned s'
      else if Ascii.eqb c "+"%char then unsigned s'
      else unsigned (String c s')
  | EmptyString => None
  end.

End Float.

(** ** ml/assistant.py *)

Module Assistant.

Import Regex.

Inductive intent : Type :=
| add_expense | add_income | check_balance | check_spending
| recent_transactions | set_budget | greeting | help | thanks.

(** [self.greetings] *)
Definition greetings : list string :=
  [ "Hello! 👋 I'm your AI expense assistant. How can I help you today?";
    "Hi there! 💰 I'm here to help manage your finances. What would you like to do?";
    "Hey! 🤖 Ready to help with your expenses. Just tell me what you need!" ].

(** The amount with its optional currency marks:
    [(?:₹|rs\.?|inr)?\s*(\d+(?:\.\d{1,2})?)\s*(?:₹|rs\.?|inr)?], the number
    being group [n]. *)
Definition amount (n : nat) : list regex :=
  [currency; ws; Group n number; ws; currency].

(** [(?:add|record|log)\s+(?:an?\s+)?] *)
Definition add_record_log : list regex :=
  [words ["add"; "record"; "log"]; ws1; Opt (seq [Lit "a"; Opt (Lit "n"); ws1])].

(** [(?:w\s+)?] *)
Definition opt_word (w : string) : regex := Opt (Seq (Lit w) ws1).

(** [self.intent_patterns] *)
Definition intent_patterns (i : intent) : list regex :=
  match i with
  | add_expense =>
      [ seq ([opt_word "i";
              alt [Lit "spent"; Lit "paid"; Lit "bought"; Lit "purchased";
                   Seq (Lit "expense") (Opt (Lit "d"))];
              ws1] ++ amount 1 ++
             [ws; Opt (words ["on"; "for"; "at"]); ws; Opt (rest 2)]);
        seq (add_record_log ++ [Lit "expense"; ws1; opt_word "of"] ++ amount 1 ++
             [ws; Opt (words ["for"; "on"]); ws; Opt (rest 2)]);
        seq [Group 1 number; ws; currency; ws1; opt_word "spent";
             words ["on"; "for"; "at"]; ws1; rest 2] ]
  | add_income =>
      [ seq ([opt_word "i"; words ["received"; "got"; "earned"; "income"]; ws1]
             ++ amount 1 ++
             [ws; Opt (words ["from"; "as"; "for"]); ws; Opt (rest 2)]);
        seq (add_record_log ++ [Lit "income"; ws1; opt_word "of"] ++ amount 1 ++
             [ws; Opt (words ["from"; "as"]); ws; Opt (rest 2)]);
        seq [Lit "salary"; ws1; opt_word "of"; currency; ws; Group 1 number] ]
  | check_balance =>
      [ seq [Opt (seq [Lit "what"; Opt (Lit "'"); Opt (Lit "s"); ws1]);
             opt_word "my"; opt_word "current"; Lit "balance"];
        seq [Lit "how"; ws1; Lit "much"; ws1;
             alt [seq [Lit "do"; ws1; Lit "i"; ws1; Lit "have"]; Lit "money"; Lit "left"]];
        seq [opt_word "show"; opt_word "my"; opt_word "account"; Lit "summary"] ]
  | check_spending =>
      [ seq [Lit "how"; ws1; Lit "much"; ws1;
             Opt (seq [Lit "did"; ws1; Lit "i"; ws1]);
             alt [Seq (Lit "spen") (Opt (Lit "t")); Lit "spend"]];
        seq [opt_word "my"; opt_word "total"; words ["spending"; "expenses"]];
        seq [opt_word "show"; Lit "spending"; ws1; words ["on"; "for"; "in"]; ws1; rest 1] ]
  | recent_transactions =>
      [ seq [opt_word "show"; opt_word "my"; words ["recent"; "last"; "latest"]; ws1;
             alt [Seq (Lit "transaction") (Opt (Lit "s"));
                  Seq (Lit "expense") (Opt (Lit "s"))]];
        seq [Lit "what"; ws1; Lit "did"; ws1; Lit "i"; ws1; words ["spend"; "buy"]; ws1;
             words ["recently"; "today"; "yesterday"]] ]
  | set_budget =>
      [ seq [Lit "set"; ws1; opt_word "a"; Lit "budget"; ws1; opt_word "of";
             currency; ws; Group 1 number; ws; opt_word "for"; Opt (rest 2)];
        seq [Lit "budget"; ws1; rest 1; ws1; words ["to"; "at"]; ws1;
             currency; ws; Group 2 number] ]
  | greeting =>
      [ seq [Bol; words ["hi"; "hello"; "hey"; "hola"; "greetings"];
             Star (fun c => Text.is_space c || Ascii.eqb c "!"%char); Eol];
        seq [Bol; Lit "good"; ws1; words ["morning"; "afternoon"; "evening"];
             Star (fun c => Text.is_space c || Ascii.eqb c "!"%char); Eol] ]
  | help =>
      [ alt [seq [Lit "what"; ws1; Lit "can"; ws1; Lit "you"; ws1; Lit "do"];
             Lit "help";
             Seq (Lit "command") (Opt (Lit "s"));
             seq [Lit "how"; ws1; Lit "to"; ws1; Lit "use"]] ]
  | thanks =>
      [ alt [Seq (Lit "thank") (Opt (Lit "s"));
             seq [Lit "thank"; ws1; Lit "you"]; Lit "thx"; Lit "ty"] ]
  end.

Definition expense_keywords : list string :=
  ["spent"; "paid"; "bought"; "purchased"; "expense"; "cost"].
Definition income_keywords : list string :=
  ["received"; "earned"; "got"; "income"; "salary"; "paid"].

(** The texts of the responses. A fixed text is a constructor or, for the
    greetings, the text itself; a formatted text carries the values it
    formats. *)
Inductive response_text : Type :=
| Said (text : string)
| HelpText
| YoureWelcome
| ExpenseAdded (amount : Q) (description icon name : string) (on : date)
| IncomeAdded (amount : Q) (description icon name : string) (on : date)
| NoIncomeCategory
| FinancialSummary (this_month : Db.summary) (total_balance : Q)
| NoExpensesThisMonth
| SpendingThisMonth (total : Q) (lines : list (string * string * Q * Q)) (biggest : string)
| NoTransactionsYet
| RecentTransactions (lines : list (Db.ttype * string * Q))
| WhichCategory
| NoCategoryMatching (category_name : string)
| BudgetSetTo (icon name : string) (amount : Q)
| NotUnderstood (suggestion : string).

(** The [data] of a result. *)
Inductive payload : Type :=
| NoData
| Added (id : Z) (amount : Q) (category : string) (description : option string)
| SummaryData (s : Db.summary)
| SpendingData (total : Q) (breakdown : list Db.breakdown_item)
| TransactionsData (rows : list Db.transaction)
| BudgetData (category : string) (amount : Q).

Record result := mkResult {
  response : response_text;
  action : string;
  data : payload
}.

(** What the two searches for a JSON object in the reply and [json.loads]
    give: no object, text that does not parse, or the parsed object, each
    key being absent or present. A present description may be [null]. *)
Record js_object := mkJs {
  js_action : option string;
  js_amount : option Q;
  js_description : option (option string)
}.

Inductive json_fragment : Type :=
| NoJson
| Unparseable
| Parsed (js_data : js_object).

(** The remote call [self.model.generate_content(prompt).text]: it raises
    (error, timeout) or returns a text. *)
Inductive gemini_reply : Type :=
| Fails
| Replies (text : string) (fragment : json_fragment).

Record prompt := mkPrompt {
  p_month : Z * Z;
  p_summary : Db.summary;
  p_categories : list Db.category;
  p_message : string
}.

(** What a call depends on besides its arguments and the database. *)
Record env := mkEnv {
  today : date;                              (* date.today(), datetime.now() *)
  pick : nat;                                (* the draw of random.choice *)
  model : Categorizer.classifier;            (* the categorizer's pipeline *)
  configure_ok : bool;                       (* genai.configure ... succeeds *)
  generate_content : prompt -> gemini_reply
}.

(** [random.choice(seq)] *)
Definition choice (e : env) (l : list string) : string :=
  nth (pick e mod length l) l EmptyString.

(** The dict passed to the two adding handlers; both keys are present. *)
Record entry := mkEntry { e_amount : Q; e_description : option string }.

Record budget_entry := mkBudgetEntry { be_amount : Q; be_category : option string }.

Definition _match_intent (message : string) (i : intent) : bool :=
  existsb (fun pattern => bool_decide (is_Some (search true pattern message)))
          (intent_patterns i).

Definition nonzero (q : Q) : bool := negb (Qeq_bool q 0).

(** The loop shared by [_extract_expense] and [_extract_income]: the first
    pattern that matches with a non-zero amount gives the entry. *)
Fixpoint extract_with (patterns : list regex) (message : string)
  : option (Q * option string) :=
  match patterns with
  | [] => None
  | pattern :: patterns' =>
      match search true pattern message with
      | Some m =>
          let amount := group 1 (f_groups m) ≫= Float.of_string in
          let description :=
            match group 2 (f_groups m) with
            | Some g => if String.eqb g EmptyString then None else Some (Text.strip g)
            | None => None
            end in
          match amount with
          | Some a => if nonzero a then Some (a, description)
                      else extract_with patterns' message
          | None => extract_with patterns' message
          end
      | None => extract_with patterns' message
      end
  end.

Definition _extract_expense (message : string) : option entry :=
  (fun '(a, description) => mkEntry a description)
    <$> extract_with (intent_patterns add_expense) message.

(** [description or 'Income'] *)
Definition or_default (description : option string) (default : string) : string :=
  match description with
  | Some text => if String.eqb text EmptyString then default else text
  | None => default
  end.

Definition _extract_income (message : string) : option entry :=
  (fun '(a, description) => mkEntry a (Some (or_default description "Income")))
    <$> extract_with (intent_patterns add_income) message.

(** [_extract_budget]: the first group is read as the amount; when it is
    not a number it is the category and the second group the amount. *)
Fixpoint extract_budget_with (patterns : list regex) (message : string)
  : option budget_entry :=
  match patterns with
  | [] => None
  | pattern :: patterns' =>
      match search true pattern message with
      | Some m =>
          let g1 := group 1 (f_groups m) in
          let g2 := group 2 (f_groups m) in
          let '(amount, category) :=
            match g1 ≫= Float.of_string with
            | Some a => (Some a, g2)
            | None => (g2 ≫= Float.of_string, g1)
            end in
          match amount with
          | Some a => if nonzero a then Some (mkBudgetEntry a category)
                      else extract_budget_with patterns' message
          | None => extract_budget_with patterns' message
          end
      | None => extract_budget_with patterns' message
      end
  end.

Definition _extract_budget (message : string) : option budget_entry :=
  extract_budget_with (intent_patterns set_budget) message.

(** [description.title() if description else 'Expense'] *)
Definition titled (description : option string) (default : string) : string :=
  match description with
  | Some text => if String.eqb text EmptyString then default else Text.title text
  | None => default
  end.

(** A handler reads and writes the database; when it raises, it does so
    before any write. *)
Definition handled := outcome (result * Db.db).

Definition _handle_add_expense (e : env) (data : entry) (user_id : Z) (d : Db.db)
  : handled :=
  let amount := e_amount data in
  let description := e_description data in
  let '(category_name, confidence) := Categorizer.predict (model e) description in
  let found :=
    match Db.get_category_by_name category_name user_id d with
    | Some category => Ok category
    | None =>
        let categories := Db.get_categories (Some Db.Expense) user_id d in
        match categories with
        | [] => Raise IndexError
        | first :: _ =>
            Ok (default first
                  (find (fun c => Text.contains "Other" (Db.c_name c)) categories))
        end
    end in
  match found with
  | Raise x => Raise x
  | Ok category =>
      let '(transaction_id, d') :=
        Db.add_transaction amount (titled description "Expense") (Db.c_id category)
                           Db.Expense (today e) user_id d in
      Ok (mkResult
            (ExpenseAdded amount (titled description "Expense")
                          (Db.c_icon category) (Db.c_name category) (today e))
            "expense_added"
            (Added transaction_id amount (Db.c_name category) description),
          d')
  end.

Definition is_income (c : Db.category) : bool := Db.ttype_eqb (Db.c_type c) Db.Income.

(** The fallback of [_handle_add_income]: a category named like Salary
    for a description that mentions a salary, else the first income
    category, if any. *)
Definition income_fallback (description : option string) (categories : list Db.category)
  : outcome (option Db.category) :=
  match description with
  | None => Raise AttributeError
  | Some text =>
      if Text.contains "salary" (Text.lower text) then
        match categories with
        | [] => Raise IndexError
        | first :: _ =>
            Ok (Some (default first
                        (find (fun c => Text.contains "Salary" (Db.c_name c)) categories)))
        end
      else Ok (head categories)
  end.

Definition _handle_add_income (e : env) (data : entry) (user_id : Z) (d : Db.db)
  : handled :=
  let amount := e_amount data in
  let description := e_description data in
  let '(category_name, _) := Categorizer.predict (model e) description in
  let by_name := Db.get_category_by_name category_name user_id d in
  let usable := match by_name with
                | Some category => is_income category
                | None => false
                end in
  let found :=
    if usable then Ok by_name
    else income_fallback description (Db.get_categories (Some Db.Income) user_id d) in
  match found with
  | Raise x => Raise x
  | Ok None => Ok (mkResult NoIncomeCategory "error" NoData, d)
  | Ok (Some category) =>
      let '(transaction_id, d') :=
        Db.add_transaction amount (titled description "Income") (Db.c_id category)
                           Db.Income (today e) user_id d in
      Ok (mkResult
            (IncomeAdded amount (titled description "Income")
                         (Db.c_icon category) (Db.c_name category) (today e))
            "income_added"
            (Added transaction_id amount (Db.c_name category) description),
          d')
  end.

Definition _handle_check_balance (e : env) (user_id : Z) (d : Db.db) : handled :=
  let summary := Db.get_summary user_id (Some (first_of_month (today e))) None d in
  let overall := Db.get_summary user_id None None d in
  Ok (mkResult (FinancialSummary summary (Db.s_balance overall))
               "balance_checked" (SummaryData summary), d).

Definition _handle_check_spending (e : env) (message : string) (user_id : Z) (d : Db.db)
  : handled :=
  let breakdown :=
    Db.get_category_breakdown user_id (Some (first_of_month (today e))) None Db.Expense d in
  match breakdown with
  | [] => Ok (mkResult NoExpensesThisMonth "spending_checked" NoData, d)
  | top :: _ =>
      let total := Qsum (map Db.b_total breakdown) in
      let spending_lines :=
        map (fun c =>
               (Db.b_icon c, Db.b_name c, Db.b_total c,
                if Qltb 0 total then (Db.b_total c / total * 100)%Q else 0%Q))
            (firstn 5 breakdown) in
      Ok (mkResult (SpendingThisMonth total spending_lines (Db.b_name top))
                   "spending_checked" (SpendingData total breakdown), d)
  end.

Definition _handle_recent_transactions (user_id : Z) (d : Db.db) : handled :=
  let transactions := Db.get_transactions user_id (Some 5%nat) d in
  match transactions with
  | [] => Ok (mkResult NoTransactionsYet "transactions_listed" NoData, d)
  | _ =>
      let tx_lines :=
        map (fun t => (Db.t_type t, Db.t_description t, Db.t_amount t)) transactions in
      Ok (mkResult (RecentTransactions tx_lines)
                   "transactions_listed" (TransactionsData transactions), d)
  end.

Definition _handle_set_budget (data : budget_entry) (user_id : Z) (d : Db.db) : handled :=
  let amount := be_amount data in
  match be_category data with
  | None => Ok (mkResult WhichCategory "need_category" NoData, d)
  | Some category_name =>
      if String.eqb category_name EmptyString
      then Ok (mkResult WhichCategory "need_category" NoData, d)
      else
        let categories := Db.get_categories (Some Db.Expense) user_id d in
        match find (fun c => Text.contains (Text.lower category_name)
                                           (Text.lower (Db.c_name c)))
                   categories with
        | None => Ok (mkResult (NoCategoryMatching category_name)
                               "category_not_found" NoData, d)
        | Some category =>
            Ok (mkResult (BudgetSetTo (Db.c_icon category) (Db.c_name category) amount)
                         "budget_set" (BudgetData (Db.c_name category) amount),
                Db.set_budget (Db.c_id category) user_id amount d)
        end
  end.

Definition _get_help_response : result := mkResult HelpText "help" NoData.

Definition suggestions : list string :=
  [ "Try saying 'Spent ₹500 on groceries'";
    "Try 'What's my balance?'";
    "Try 'Show my recent expenses'" ].

Definition _get_fallback_response (e : env) (message : string) : result :=
  mkResult (NotUnderstood (choice e suggestions)) "fallback" NoData.

(** [_smart_parse]: the first number of the message is the amount, what is
    left of the message once numbers and the listed words are removed is
    the description, and an income keyword makes it an income. *)
Definition _smart_parse (e : env) (message : string) (user_id : Z) (d : Db.db)
  : option handled :=
  match search false (seq (amount 1)) message with
  | Some m =>
      match group 1 (f_groups m) ≫= Float.of_string with
      | Some a =>
          let description :=
            Text.strip (sub_empty (seq [currency; ws; number; ws; currency]) message) in
          let description :=
            Text.strip
              (sub_empty
                 (Seq (words ["spent"; "paid"; "for"; "on"; "at"; "expense"; "income"]) ws)
                 description) in
          if Qltb 0 a then
            if existsb (fun kw => Text.contains kw message) income_keywords
            then Some (_handle_add_income e
                         (mkEntry a (Some (or_default (Some description) "Income")))
                         user_id d)
            else Some (_handle_add_expense e
                         (mkEntry a (Some (or_default (Some description) "Expense")))
                         user_id d)
          else None
      | None => None
      end
  | None => None
  end.

Definition _process_with_regex (e : env) (message : string) (user_id : Z) (d : Db.db)
  : handled :=
  if _match_intent message greeting then
    Ok (mkResult (Said (choice e greetings)) "greeting" NoData, d)
  else if _match_intent message help then Ok (_get_help_response, d)
  else if _match_intent message thanks then Ok (mkResult YoureWelcome "thanks" NoData, d)
  else
    match _extract_expense message with
    | Some expense_data => _handle_add_expense e expense_data user_id d
    | None =>
    match _extract_income message with
    | Some income_data => _handle_add_income e income_data user_id d
    | None =>
    if _match_intent message check_balance then _handle_check_balance e user_id d
    else if _match_intent message check_spending
    then _handle_check_spending e message user_id d
    else if _match_intent message recent_transactions
    then _handle_recent_transactions user_id d
    else
      match _extract_budget message with
      | Some budget_data => _handle_set_budget budget_data user_id d
      | None =>
          match _smart_parse e message user_id d with
          | Some smart_parse => smart_parse
          | None => Ok (_get_fallback_response e message, d)
          end
      end
    end
    end.

(** The inner [try] of [_process_with_gemini]: a parsed object whose action
    is an addition is handed to the handler; [None] stands for leaving the
    block without returning, which every exception in it does too. *)
Definition gemini_action (e : env) (fragment : json_fragment) (user_id : Z) (d : Db.db)
  : option (result * Db.db) :=
  match fragment with
  | Parsed js_data =>
      let run_handler (handler : env -> entry -> Z -> Db.db -> handled) :=
        match js_amount js_data, js_description js_data with
        | Some a, Some description =>
            match handler e (mkEntry a description) user_id d with
            | Ok r => Some r
            | Raise _ => None
            end
        | _, _ => None
        end in
      match js_action js_data with
      | Some act =>
          if String.eqb act "add_expense" then run_handler _handle_add_expense
          else if String.eqb act "add_income" then run_handler _handle_add_income
          else None
      | None => None
      end
  | NoJson | Unparseable => None
  end.

(** The prompt of [_process_with_gemini]: the month, the summary of the
    month, the categories of the user and the message. *)
Definition build_prompt (e : env) (message : string) (user_id : Z) (d : Db.db) : prompt :=
  let summary := Db.get_summary user_id (Some (first_of_month (today e))) None d in
  let categories := Db.get_categories None user_id d in
  mkPrompt (month_key (today e)) summary categories message.

Definition _process_with_gemini (e : env) (message : string) (user_id : Z) (d : Db.db)
  : handled :=
  match generate_content e (build_prompt e message user_id d) with
  | Replies text fragment =>
      match gemini_action e fragment user_id d with
      | Some r => Ok r
      | None => Ok (mkResult (Said text) "chat" NoData, d)
      end
  | Fails => _process_with_regex e message user_id d
  end.

(** [self.api_key] and whether [self.model] is set. *)
Record assistant := mkAssistant { api_key : option string; has_model : bool }.

Definition truthy (value : option string) : bool :=
  match value with
  | Some text => negb (String.eqb text EmptyString)
  | None => false
  end.

(** The re-check of the API key at the head of [process_message]: with a
    key and no model yet, the model is configured, which may fail. *)
Definition ensure_model (e : env) (self : assistant) (key : option string) : bool :=
  if truthy key && negb (has_model self) then configure_ok e else has_model self.

Definition process_message (e : env) (self : assistant) (message : string)
    (user_id : Z) (d : Db.db) : assistant * handled :=
  let message := Text.lower (Text.strip message) in
  let key := Db.get_setting "gemini_api_key" user_id d in
  let ready := ensure_model e self key in
  (mkAssistant key ready,
   if ready then _process_with_gemini e message user_id d
   else _process_with_regex e message user_id d).

End Assistant.



(** * Vocabulary of the properties *)

(** Some keyword of the list occurs in the text. *)
Definition hits (keywords : list string) (text : string) : Prop :=
  exists keyword, In keyword keywords /\ Text.contains (Text.lower keyword) text = true.

(** [category] is the first category of the table, in its order, with a
    keyword that occurs in the text. *)
Inductive first_match : list (string * list string) -> string -> string -> Prop :=
| first_here category keywords rest text :
    hits keywords text ->
    first_match ((category, keywords) :: rest) text category
| first_later other keywords rest text category :
    ~ hits keywords text ->
    first_match rest text category ->
    first_match ((other, keywords) :: rest) text category.

(** The pairs [(category, keyword, winner)] of the table whose keyword
    contains a keyword of an earlier category, with that category. *)
Definition shadowed : list (string * string * string) :=
  [ ("Utilities", "gas bill", "Transport");
    ("Utilities", "cable", "Transport");
    ("Shopping", "home decor", "Utilities");
    ("Education", "books", "Entertainment");
    ("Education", "training", "Transport");
    ("Savings", "mutual fund", "Entertainment");
    ("Freelance", "project payment", "Salary");
    ("Freelance", "client payment", "Salary");
    ("Investment", "investment income", "Savings");
    ("Investment", "rental income", "Utilities");
    ("Investment", "passive income", "Salary");
    ("Gift", "gift", "Shopping");
    ("Gift", "present", "Shopping");
    ("Gift", "cash gift", "Shopping");
    ("Gift", "wedding gift", "Shopping");
    ("Gift", "bonus gift", "Shopping") ].

Definition triple_eqb (a b : string * string * string) : bool :=
  String.eqb a.1.1 b.1.1 && String.eqb a.1.2 b.1.2 && String.eqb a.2 b.2.

(** What is checked of one pair of the table, by evaluation. *)
Definition pair_ok (category keyword : string) : bool :=
  negb (String.eqb keyword EmptyString || String.eqb (Text.strip keyword) EmptyString)
  && String.eqb (Text.lower (Categorizer._clean_text keyword)) keyword
  && match Categorizer.keyword_scan Categorizer.TRAINING_DATA keyword with
     | Some winner =>
         String.eqb winner category
         || existsb (triple_eqb (category, keyword, winner)) shadowed
     | None => false
     end.


(** Three months of history with expenses 100, 200 and 300. *)
Definition three_months : list Db.monthly :=
  [ Db.mkMonthly (2026, 8)%Z 0 100;
    Db.mkMonthly (2026, 9)%Z 0 200;
    Db.mkMonthly (2026, 10)%Z 0 300 ].

(** Six months whose first three expenses average 100 and last three 110. *)
Definition six_months : list Db.monthly :=
  [ Db.mkMonthly (2026, 5)%Z 0 90;
    Db.mkMonthly (2026, 6)%Z 0 100;
    Db.mkMonthly (2026, 7)%Z 0 110;
    Db.mkMonthly (2026, 8)%Z 0 100;
    Db.mkMonthly (2026, 9)%Z 0 110;
    Db.mkMonthly (2026, 10)%Z 0 120 ].

(** A registered user (the shared defaults of a fresh database, then the
    defaults of user 1) with a budget of 100 on each of the two categories
    named Food & Dining, and 100 spent on each in November 2026. *)
Definition two_food_budgets : Db.db :=
  let d := Db._seed_categories (Some 1%Z) Db.init in
  let d := Db.set_budget 1 1 100 d in
  let d := Db.set_budget 15 1 100 d in
  let d := (Db.add_transaction 100 "Lunch" 1 Db.Expense (mkDate 2026 11 2) 1 d).2 in
  (Db.add_transaction 100 "Dinner" 15 Db.Expense (mkDate 2026 11 3) 1 d).2.

(** An alert of the first pass of [detect_overspending]. *)
Definition is_budget_alert (a : Predictor.alert) : Prop :=
  Predictor.a_type a = "budget_exceeded" \/ Predictor.a_type a = "budget_warning".

(** The database of a registered user: the shared defaults, then the
    defaults of user 1. *)
Definition registered : Db.db := Db._seed_categories (Some 1%Z) Db.init.

(** The shared Food & Dining category, the first row of [registered]. *)
Definition food : Db.category :=
  Db.mkCategory 1 "Food & Dining" Db.Expense "🍔" "#FF6B6B" None.

(** An environment in which the remote assistant is never reached. *)
Definition offline (today : date) (pick : nat) : Assistant.env :=
  Assistant.mkEnv today pick None false (fun _ => Assistant.Fails).

(** An environment whose remote assistant answers with a text in which the
    JSON object found does not parse. *)
Definition garbled (today : date) : Assistant.env :=
  Assistant.mkEnv today 0 None true
    (fun _ => Assistant.Replies "Sure! {amount: oops" Assistant.Unparseable).

(** [registered] with a remote credential stored for user 1. *)
Definition with_key : Db.db := Db.set_setting "gemini_api_key" "secret" 1 registered.

(** An environment whose remote assistant is configured and fails on every
    call. *)
Definition unreachable (today : date) : Assistant.env :=
  Assistant.mkEnv today 0 None true (fun _ => Assistant.Fails).

(** An assistant that has not been used yet. *)
Definition fresh : Assistant.assistant := Assistant.mkAssistant None false.

(** User 1 with one expense in each of August, September and October 2026:
    100, 200 and 300. *)
Definition three_expenses : Db.db :=
  let d := registered in
  let d := (Db.add_transaction 100 "Rent" 4 Db.Expense (mkDate 2026 8 10) 1 d).2 in
  let d := (Db.add_transaction 200 "Rent" 4 Db.Expense (mkDate 2026 9 10) 1 d).2 in
  (Db.add_transaction 300 "Rent" 4 Db.Expense (mkDate 2026 10 10) 1 d).2.

(** The characters of a text. *)
Definition chars (s : string) : list ascii := list_ascii_of_string s.

(** A text made of white space only (the empty text included). *)
Definition all_spaces (s : string) : bool := forallb Text.is_space (chars s).

(** A character of a normalized text: a lower-case letter, a digit or the
    space. *)
Definition normalized_char (c : ascii) : Prop :=
  c = " "%char \/ (Text.is_lower c || Text.is_digit c) = true.

(** User 1 with an expense of 100 on the 10th of each month from May to
    October 2026 and one on 2 November: on 4 November the six-month window,
    which opens on 4 May, holds seven calendar months. *)
Definition seven_months : Db.db :=
  fold_left
    (fun d on => (Db.add_transaction 100 "Rent" 4 Db.Expense on 1 d).2)
    [ mkDate 2026 5 10; mkDate 2026 6 10; mkDate 2026 7 10; mkDate 2026 8 10;
      mkDate 2026 9 10; mkDate 2026 10 10; mkDate 2026 11 2 ]
    registered.


(** The total of [a] is at least the total of [b]. *)
Definition not_below (a b : Db.breakdown_item) : Prop :=
  (Db.b_total b <= Db.b_total a)%Q.

(** The period from [start_date] to [end_date], each optional, holds the
    date. *)
Definition covers (start_date end_date : option date) (on : date) : bool :=
  match start_date with Some s => date_leb s on | None => true end
  && match end_date with Some e => date_leb on e | None => true end.

(** The user has an expense category and an income category at hand. *)
Definition has_categories (user_id : Z) (d : Db.db) : Prop :=
  Db.get_categories (Some Db.Expense) user_id d <> []
  /\ Db.get_categories (Some Db.Income) user_id d <> [].

(** [d'] is [d], or [d] after one transaction of the user dated [today] was
    added, or [d] after one budget of the user was set. *)
Definition one_write (user_id : Z) (today : date) (d d' : Db.db) : Prop :=
  d' = d
  \/ (exists amount description category_id ty,
        d' = (Db.add_transaction amount description category_id ty today user_id d).2)
  \/ (exists category_id limit, d' = Db.set_budget category_id user_id limit d).

(** The databases the storage operations can produce from a fresh one. *)
Inductive reachable : Db.db -> Prop :=
| reach_init : reachable Db.init
| reach_seed user_id d :
    reachable d -> reachable (Db._seed_categories (Some user_id) d)
| reach_add_category name ty user_id icon color d :
    reachable d -> reachable (Db.add_category name ty user_id icon color d).2
| reach_add_transaction amount description category_id ty on user_id d :
    reachable d ->
    reachable (Db.add_transaction amount description category_id ty on user_id d).2
| reach_update transaction_id user_id ch d :
    reachable d -> reachable (Db.update_transaction transaction_id user_id ch d).2
| reach_delete transaction_id user_id d :
    reachable d -> reachable (Db.delete_transaction transaction_id user_id d).2
| reach_clear user_id d :
    reachable d -> reachable (Db.clear_all_data user_id d)
| reach_set_budget category_id user_id limit d :
    reachable d -> reachable (Db.set_budget category_id user_id limit d)
| reach_set_setting key value user_id d :
    reachable d -> reachable (Db.set_setting key value user_id d).

(** Ids are below the counters and distinct, and a shared category of each
    type exists. *)
Definition well_formed (d : Db.db) : Prop :=
  Forall (fun t => (Db.t_id t < Db.next_transaction_id d)%Z) (Db.transactions d)
  /\ List.NoDup (map Db.t_id (Db.transactions d))
  /\ Forall (fun c => (Db.c_id c < Db.next_category_id d)%Z) (Db.categories d)
  /\ List.NoDup (map Db.c_id (Db.categories d))
  /\ (exists c, In c (Db.categories d) /\ Db.c_user c = None /\ Db.c_type c = Db.Expense)
  /\ (exists c, In c (Db.categories d) /\ Db.c_user c = None /\ Db.c_type c = Db.Income).

(** A text without any digit. *)
Definition digit_free (s : string) : Prop :=
  Forall (fun c => Text.is_digit c = false) (chars s).

(** A pattern that cannot match without reading a digit. *)
Inductive needs_digit : Regex.regex -> Prop :=
| needs_digit_class p :
    (forall c, p c = true -> Text.is_digit c = true) -> needs_digit (Regex.Class p)
| needs_digit_first r1 r2 : needs_digit r1 -> needs_digit (Regex.Seq r1 r2)
| needs_digit_second r1 r2 : needs_digit r2 -> needs_digit (Regex.Seq r1 r2)
| needs_digit_both r1 r2 :
    needs_digit r1 -> needs_digit r2 -> needs_digit (Regex.Alt r1 r2)
| needs_digit_group n r : needs_digit r -> needs_digit (Regex.Group n r).

(** The actions of the responses that write nothing. *)
Definition reading_actions : list string :=
  [ "greeting"; "help"; "thanks"; "balance_checked"; "spending_checked";
    "transactions_listed"; "fallback" ].
(** * Properties *)

(** ** Categorizer: the keyword override *)

Section KeywordOverride.

Import Categorizer.

Lemma any_keyword_in_hits keywords text :
  any_keyword_in keywords text = true <-> hits keywords text.
Proof.
  unfold any_keyword_in, hits. rewrite existsb_exists. reflexivity.
Qed.

Lemma keyword_scan_first_match table text category :
  keyword_scan table text = Some category -> first_match table text category.
Proof.
  induction table as [|[other keywords] rest IH]; simpl; [discriminate|].
  destruct (any_keyword_in keywords text) eqn:Hany.
  - intros [= <-]. apply first_here. now apply any_keyword_in_hits.
  - intros Hrest. apply first_later; [|now apply IH].
    intros Hhit. apply any_keyword_in_hits in Hhit. congruence.
Qed.

Lemma first_match_keyword_scan table text category :
  first_match table text category -> keyword_scan table text = Some category.
Proof.
  induction 1 as [c kws rest text Hhit | o kws rest text c Hmiss _ IH]; simpl.
  - apply any_keyword_in_hits in Hhit. now rewrite Hhit.
  - destruct (any_keyword_in kws text) eqn:Hany; [|exact IH].
    exfalso. apply Hmiss. now apply any_keyword_in_hits.
Qed.

Lemma predict_keyword_hit model description category :
  String.eqb description EmptyString
    || String.eqb (Text.strip description) EmptyString = false ->
  keyword_scan TRAINING_DATA (Text.lower (_clean_text description)) = Some category ->
  predict model (Some description) = (category, confidence_keyword).
Proof.
  intros Hblank Hscan. unfold predict, _keyword_match.
  rewrite Hblank, Hscan. reflexivity.
Qed.

(** The override in general: a description that is not blank and whose
    normalized text has a first matching category gets that category with
    confidence 0.95, whatever the statistical model. *)
Lemma predict_first_match model description category :
  String.eqb description EmptyString
    || String.eqb (Text.strip description) EmptyString = false ->
  first_match TRAINING_DATA (Text.lower (_clean_text description)) category ->
  predict model (Some description) = (category, confidence_keyword).
Proof.
  intros Hblank Hfirst. apply predict_keyword_hit; [exact Hblank|].
  now apply first_match_keyword_scan.
Qed.

Lemma table_pairs_ok :
  forallb (fun '(category, keywords) => forallb (pair_ok category) keywords)
          TRAINING_DATA = true.
Proof. vm_compute. reflexivity. Qed.

Lemma triple_eqb_eq a b : triple_eqb a b = true -> a = b.
Proof.
  destruct a as [[a1 a2] a3], b as [[b1 b2] b3]. unfold triple_eqb; simpl.
  rewrite !andb_true_iff, !String.eqb_eq. intros [[-> ->] ->]. reflexivity.
Qed.

(** C1 (as amended): for every (category, keyword) pair of TRAINING_DATA,
    predict(keyword) returns (winner, 0.95) where winner is the first
    category in table order with a keyword occurring in the keyword; winner
    is the pair's own category except for the sixteen pairs of [shadowed],
    whose keyword contains a keyword of an earlier category. *)
Theorem C1_keyword_prediction model category keywords keyword :
  In (category, keywords) TRAINING_DATA ->
  In keyword keywords ->
  exists winner,
    predict model (Some keyword) = (winner, confidence_keyword)
    /\ first_match TRAINING_DATA keyword winner
    /\ (winner = category \/ In (category, keyword, winner) shadowed).
Proof.
  intros Hrow Hkw.
  pose proof table_pairs_ok as Hall.
  rewrite forallb_forall in Hall. specialize (Hall _ Hrow). simpl in Hall.
  rewrite forallb_forall in Hall. specialize (Hall _ Hkw).
  unfold pair_ok in Hall.
  apply andb_true_iff in Hall as [Hall Hscan].
  apply andb_true_iff in Hall as [Hblank Hclean].
  apply negb_true_iff in Hblank. apply String.eqb_eq in Hclean.
  destruct (keyword_scan TRAINING_DATA keyword) as [winner|] eqn:Hw; [|discriminate].
  exists winner. split; [|split].
  - apply predict_keyword_hit; [exact Hblank|]. now rewrite Hclean.
  - now apply keyword_scan_first_match.
  - apply orb_true_iff in Hscan as [Hsame|Hshadow].
    + left. now apply String.eqb_eq.
    + right. apply existsb_exists in Hshadow as [t [Hin Heq]].
      apply triple_eqb_eq in Heq. now subst t.
Qed.

Lemma C1_keyword_prediction_witness :
  exists winner,
    predict None (Some "groceries") = (winner, confidence_keyword)
    /\ first_match TRAINING_DATA "groceries" winner
    /\ (winner = "Food & Dining" \/ In ("Food & Dining", "groceries", winner) shadowed).
Proof.
  apply (C1_keyword_prediction None "Food & Dining"
           (nth 0 (map snd TRAINING_DATA) []) "groceries").
  - vm_compute. left. reflexivity.
  - vm_compute. do 8 right. left. reflexivity.
Defined.

(** C1 fails as stated: "gas bill" is a keyword of Utilities, and
    predict("gas bill") is ("Transport", 0.95), because "gas" is a keyword
    of Transport, which comes first in the table. *)
Lemma C1_gas_bill_is_transport :
  In "gas bill" (nth 3 (map snd TRAINING_DATA) [])
  /\ In ("Utilities", nth 3 (map snd TRAINING_DATA) []) TRAINING_DATA
  /\ predict None (Some "gas bill") = ("Transport", confidence_keyword)
  /\ predict None (Some "gas bill") <> ("Utilities", confidence_keyword).
Proof.
  split; [|split; [|split]].
  - vm_compute. do 3 right. left. reflexivity.
  - vm_compute. do 3 right. left. reflexivity.
  - vm_compute. reflexivity.
  - vm_compute. discriminate.
Qed.

End KeywordOverride.

(** ** Forecast engine *)

Section Forecast.

Import Predictor.
Local Open Scope Q_scope.

Lemma Qltb_lt a b : Qltb a b = true <-> a < b.
Proof.
  unfold Qltb. rewrite negb_true_iff. split.
  - intros Hle. apply Qnot_le_lt. intros Hba.
    apply Qle_bool_iff in Hba. congruence.
  - intros Hlt. destruct (Qle_bool b a) eqn:Hle; [|reflexivity].
    apply Qle_bool_iff in Hle. exfalso. now apply (Qlt_not_le a b).
Qed.

Lemma Qltb_ge a b : Qltb a b = false <-> b <= a.
Proof.
  unfold Qltb. rewrite negb_false_iff. apply Qle_bool_iff.
Qed.

Lemma round_half_even_comp a b : a == b -> round_half_even a = round_half_even b.
Proof.
  intros Hab. unfold round_half_even.
  rewrite <- (Qfloor_comp a b Hab).
  assert (Hcmp : Qcompare (a - inject_Z (Qfloor a)) (1 # 2)
                 = Qcompare (b - inject_Z (Qfloor a)) (1 # 2)).
  { apply Qcompare_comp; [|reflexivity].
    apply Qplus_comp; [exact Hab | reflexivity]. }
  cbv zeta. now rewrite Hcmp.
Qed.

Lemma round2_comp a b : a == b -> round2 a = round2 b.
Proof.
  intros Hab. unfold round2. f_equal. apply round_half_even_comp. now rewrite Hab.
Qed.

Lemma weights_for_length n : (n <= 6)%nat -> length (weights_for n) = n.
Proof.
  intros Hn. unfold weights_for. rewrite length_map, length_firstn.
  change (length ramp) with 6%nat. lia.
Qed.

Lemma weights_for_sum n :
  (1 <= n <= 6)%nat -> Qeq_bool (Qsum (weights_for n)) 0 = false.
Proof.
  intros Hn.
  destruct n as [|[|[|[|[|[|[|n]]]]]]]; try lia; vm_compute; reflexivity.
Qed.

(** With one to six values, [np.average] over the ramp weights returns. *)
Lemma np_average_returns values :
  (1 <= length values <= 6)%nat ->
  np_average values (weights_for (length values))
  = Ok (Qsum (products values (weights_for (length values)))
        / Qsum (weights_for (length values))).
Proof.
  intros Hn. unfold np_average.
  rewrite weights_for_length by lia. rewrite Nat.eqb_refl. simpl negb. cbv iota.
  now rewrite weights_for_sum.
Qed.

(** From two to six months, [predict_from] returns, with the weighted
    averages rounded and the trend of [classify_trend]. *)
Lemma predict_from_returns df :
  (2 <= length df <= 6)%nat ->
  let weights := weights_for (length df) in
  let expense := Qsum (products (map Db.m_expense df) weights) / Qsum weights in
  let income := Qsum (products (map Db.m_income df) weights) / Qsum weights in
  predict_from df
  = Ok (mkPrediction (round2 expense) (round2 income) (Some (round2 (income - expense)))
          (confidence_of (length df)) (classify_trend (map Db.m_expense df))
          (_get_prediction_message (classify_trend (map Db.m_expense df)) expense income)).
Proof.
  intros Hn. cbv zeta. unfold predict_from.
  destruct (length df <? 2)%nat eqn:Hlt; [apply Nat.ltb_lt in Hlt; lia|].
  pose proof (np_average_returns (map Db.m_expense df)) as He.
  pose proof (np_average_returns (map Db.m_income df)) as Hi.
  rewrite length_map in He, Hi.
  rewrite He, Hi by lia. reflexivity.
Qed.

(** Seven months or more make [np.average] raise: the ramp has six weights. *)
Lemma predict_from_raises df :
  (7 <= length df)%nat -> predict_from df = Raise TypeError.
Proof.
  intros Hn. unfold predict_from.
  destruct (length df <? 2)%nat eqn:Hlt; [apply Nat.ltb_lt in Hlt; lia|].
  unfold np_average.
  assert (Hw : length (weights_for (length df)) = 6%nat).
  { unfold weights_for. rewrite length_map, length_firstn.
    change (length ramp) with 6%nat. lia. }
  rewrite length_map, Hw.
  destruct (length df =? 6)%nat eqn:Heq; [apply Nat.eqb_eq in Heq; lia|].
  reflexivity.
Qed.

(** C2 (as amended): with exactly three monthly aggregates whose expense
    totals are 100, 200, 300 in chronological order, the weights are the
    first three of the ramp, [1, 1.5, 2], renormalized to sum 1, that is
    2/9, 1/3 and 4/9 (the most recent month the highest), and
    predicted_expense is 222.22. *)
Theorem C2_weighted_average (df : list Db.monthly) :
  Forall2 Qeq (map Db.m_expense df) [100; 200; 300] ->
  exists p,
    predict_from df = Ok p
    /\ Forall2 Qeq (weights_for (length df))
                   (map (fun w => w / (1 + (3 # 2) + 2)) [1; 3 # 2; 2])
    /\ Forall2 Qeq (weights_for (length df)) [2 # 9; 1 # 3; 4 # 9]
    /\ predicted_expense p = 22222 # 100.
Proof.
  intros Hexp.
  destruct df as [|r1 [|r2 [|r3 [|r4 df]]]]; simpl in Hexp;
    try solve [inversion Hexp as [|? ? ? ? ? Ht]; subst;
               try inversion Ht as [|? ? ? ? ? Ht2]; subst;
               try inversion Ht2 as [|? ? ? ? ? Ht3]; subst;
               try inversion Ht3 as [|? ? ? ? ? Ht4]; subst;
               try inversion Ht4].
  inversion Hexp as [|? ? ? ? H1 Ht]; subst.
  inversion Ht as [|? ? ? ? H2 Ht2]; subst.
  inversion Ht2 as [|? ? ? ? H3 _]; subst.
  eexists. split; [|split; [|split]].
  - apply predict_from_returns. simpl. lia.
  - repeat constructor; vm_compute; reflexivity.
  - repeat constructor; vm_compute; reflexivity.
  - cbn [predicted_expense].
    transitivity (round2 (2000 # 9)); [|vm_compute; reflexivity].
    apply round2_comp.
    cbv [length map products weights_for firstn ramp Qsum fold_left].
    rewrite H1, H2, H3. vm_compute. reflexivity.
Qed.

Lemma C2_weighted_average_witness :
  exists p,
    predict_from three_months = Ok p
    /\ Forall2 Qeq (weights_for (length three_months))
                   (map (fun w => w / (1 + (3 # 2) + 2)) [1; 3 # 2; 2])
    /\ Forall2 Qeq (weights_for (length three_months)) [2 # 9; 1 # 3; 4 # 9]
    /\ predicted_expense p = 22222 # 100.
Proof.
  apply (C2_weighted_average three_months).
  repeat constructor; vm_compute; reflexivity.
Defined.

(** C2 fails as stated: on the expenses [100, 200, 300] the prediction is
    222.22, which is not within 1 of 213.3, and the weights are not
    [2, 2.5, 3] renormalized. *)
Lemma C2_prediction_is_not_213 :
  exists p,
    predict_from three_months = Ok p
    /\ predicted_expense p == 222.22
    /\ ~ (Qabs (predicted_expense p - 213.3) <= 1)
    /\ ~ Forall2 Qeq (weights_for 3) (map (fun w => w / (2 + (5 # 2) + 3)) [2; 5 # 2; 3]).
Proof.
  eexists. split; [vm_compute; reflexivity|]. split; [|split].
  - vm_compute. reflexivity.
  - vm_compute. intros H. apply H. reflexivity.
  - intros H. inversion H as [|? ? ? ? Hw _]; subst. vm_compute in Hw. discriminate.
Qed.

(** The same from the stored transactions, on 4 November 2026. *)
Example three_expenses_predicted :
  map Db.m_expense (Db.get_monthly_trends 1 6 (mkDate 2026 11 4) three_expenses)
  = [100; 200; 300]
  /\ (fun r => match r with
               | Ok p => Some (predicted_expense p, confidence p)
               | Raise _ => None
               end)
       (predict_next_month_expenses 1 (mkDate 2026 11 4) three_expenses)
     = Some (22222 # 100, "medium").
Proof. split; vm_compute; reflexivity. Qed.

(** C3 (the code at the failing input): with fewer than two monthly
    aggregates the function returns the sentinel, whose predicted_expense
    and predicted_income are 0, confidence "low" and trend
    "insufficient_data", and which has no predicted_savings key. *)
Theorem C3_sentinel_has_no_savings (user_id : Z) (today : date) (d : Db.db) :
  (length (Db.get_monthly_trends user_id 6 today d) < 2)%nat ->
  exists p,
    predict_next_month_expenses user_id today d = Ok p
    /\ predicted_expense p = 0
    /\ predicted_income p = 0
    /\ predicted_savings p = None
    /\ confidence p = "low"
    /\ trend p = "insufficient_data".
Proof.
  intros Hfew. unfold predict_next_month_expenses, predict_from.
  apply Nat.ltb_lt in Hfew. rewrite Hfew.
  eexists. split; [reflexivity|]. repeat split.
Qed.

Lemma C3_sentinel_has_no_savings_witness :
  exists p,
    predict_next_month_expenses 1 (mkDate 2026 11 4) Db.init = Ok p
    /\ predicted_expense p = 0
    /\ predicted_income p = 0
    /\ predicted_savings p = None
    /\ confidence p = "low"
    /\ trend p = "insufficient_data".
Proof.
  apply (C3_sentinel_has_no_savings 1 (mkDate 2026 11 4) Db.init).
  vm_compute. lia.
Defined.

(** C7: with at least three monthly points the trend is "increasing"
    exactly when the mean of the last three exceeds 1.1 times the mean of
    the first three, strictly: means 110 against 100 give "stable", a
    recent mean above 110 against 100 gives "increasing"; and up to six
    points [predict_from] returns that trend. *)
Theorem C7_increasing_is_strict (df : list Db.monthly) :
  (3 <= length df)%nat ->
  let expenses := map Db.m_expense df in
  let recent := Qmean (tail3 expenses) in
  let older := Qmean (head3 expenses) in
  (classify_trend expenses = "increasing" <-> older * (11 # 10) < recent)
  /\ (older == 100 -> recent == 110 -> classify_trend expenses = "stable")
  /\ (older == 100 -> 110 < recent -> classify_trend expenses = "increasing")
  /\ ((length df <= 6)%nat ->
      exists p, predict_from df = Ok p /\ trend p = classify_trend expenses).
Proof.
  intros Hlen expenses recent older.
  assert (Hunfold : classify_trend expenses
                    = if Qltb (older * (11 # 10)) recent then "increasing"
                      else if Qltb recent (older * (9 # 10)) then "decreasing"
                      else "stable").
  { unfold classify_trend. subst expenses. rewrite length_map.
    destruct (3 <=? length df)%nat eqn:H3; [reflexivity|].
    apply Nat.leb_gt in H3. lia. }
  split; [|split; [|split]].
  - rewrite Hunfold. destruct (Qltb (older * (11 # 10)) recent) eqn:Hup.
    + apply Qltb_lt in Hup. tauto.
    + apply Qltb_ge in Hup. split.
      * destruct (Qltb recent (older * (9 # 10))); discriminate.
      * intros Hlt. exfalso. now apply (Qlt_not_le _ _ Hlt).
  - intros Hold Hrec. rewrite Hunfold.
    destruct (Qltb (older * (11 # 10)) recent) eqn:Hup.
    + apply Qltb_lt in Hup. rewrite Hold, Hrec in Hup. vm_compute in Hup. discriminate.
    + destruct (Qltb recent (older * (9 # 10))) eqn:Hdown; [|reflexivity].
      apply Qltb_lt in Hdown. rewrite Hold, Hrec in Hdown. vm_compute in Hdown.
      discriminate.
  - intros Hold Hrec. rewrite Hunfold.
    destruct (Qltb (older * (11 # 10)) recent) eqn:Hup; [reflexivity|].
    apply Qltb_ge in Hup. rewrite Hold in Hup.
    pose proof (Qlt_le_trans _ _ _ Hrec Hup) as Habs.
    vm_compute in Habs. discriminate.
  - intros Hsix. eexists. split; [apply predict_from_returns; lia|]. reflexivity.
Qed.

Lemma C7_increasing_is_strict_witness :
  let expenses := map Db.m_expense six_months in
  let recent := Qmean (tail3 expenses) in
  let older := Qmean (head3 expenses) in
  (classify_trend expenses = "increasing" <-> older * (11 # 10) < recent)
  /\ (older == 100 -> recent == 110 -> classify_trend expenses = "stable")
  /\ (older == 100 -> 110 < recent -> classify_trend expenses = "increasing")
  /\ ((length six_months <= 6)%nat ->
      exists p, predict_from six_months = Ok p /\ trend p = classify_trend expenses).
Proof.
  apply (C7_increasing_is_strict six_months). vm_compute. lia.
Defined.

Example trend_at_the_boundary :
  classify_trend [100; 100; 100; 110; 110; 110] = "stable"
  /\ classify_trend [100; 100; 100; 111; 111; 111] = "increasing"
  /\ classify_trend [100; 100; 100; 90; 90; 90] = "stable"
  /\ classify_trend [100; 100; 100; 89; 89; 89] = "decreasing".
Proof. repeat split; vm_compute; reflexivity. Qed.

End Forecast.

(** ** Alert engine *)

Section Alerts.

Import Predictor.

Lemma budget_alerts_cons item status :
  budget_alerts (item :: status) = budget_alerts [item] ++ budget_alerts status.
Proof.
  unfold budget_alerts. simpl. now rewrite app_nil_r.
Qed.

(** A status row gives no alert or one alert, which carries its name. *)
Lemma budget_alerts_one item :
  budget_alerts [item] = []
  \/ exists a, budget_alerts [item] = [a]
               /\ a_category a = Db.bs_name item /\ is_budget_alert a.
Proof.
  unfold budget_alerts, is_budget_alert. simpl.
  destruct (Qle_bool 100 (Db.bs_percentage item)).
  - right. eexists. split; [reflexivity|]. simpl. auto.
  - destruct (Qle_bool 80 (Db.bs_percentage item)).
    + right. eexists. split; [reflexivity|]. simpl. auto.
    + now left.
Qed.

Lemma budget_alerts_kinds status : Forall is_budget_alert (budget_alerts status).
Proof.
  induction status as [|item status IH]; [constructor|].
  rewrite budget_alerts_cons.
  destruct (budget_alerts_one item) as [-> | (a & -> & _ & Hkind)]; simpl.
  - exact IH.
  - now constructor.
Qed.

Lemma budget_alerts_names status name :
  In name (map a_category (budget_alerts status)) -> In name (map Db.bs_name status).
Proof.
  induction status as [|item status IH]; [easy|].
  rewrite budget_alerts_cons.
  destruct (budget_alerts_one item) as [-> | (a & -> & Hname & _)]; simpl.
  - intros H. right. now apply IH.
  - intros [H|H]; [left; congruence | right; now apply IH].
Qed.

Lemma budget_alerts_distinct status :
  List.NoDup (map Db.bs_name status) ->
  List.NoDup (map a_category (budget_alerts status)).
Proof.
  induction status as [|item status IH]; [intros _; constructor|].
  intros Hnd. simpl in Hnd. apply List.NoDup_cons_iff in Hnd as [Hfresh Hnd].
  rewrite budget_alerts_cons.
  destruct (budget_alerts_one item) as [-> | (a & -> & Hname & _)]; simpl.
  - now apply IH.
  - constructor; [|now apply IH].
    rewrite Hname. intros Hin. apply Hfresh. now apply budget_alerts_names.
Qed.

Lemma not_listed name names :
  existsb (String.eqb name) names = false -> ~ In name names.
Proof.
  intros Hex Hin.
  assert (existsb (String.eqb name) names = true) as Htrue.
  { apply existsb_exists. exists name. split; [exact Hin | apply String.eqb_refl]. }
  congruence.
Qed.

Lemma spike_alerts_cons avg cat breakdown alerts :
  spike_alerts avg (cat :: breakdown) alerts
  = spike_alerts avg breakdown (spike_alerts avg [cat] alerts).
Proof. reflexivity. Qed.

(** One category of the breakdown leaves the alerts as they are or appends
    one "high_spending" alert, whose name no alert carried. *)
Lemma spike_alerts_one avg cat alerts :
  spike_alerts avg [cat] alerts = alerts
  \/ exists new, spike_alerts avg [cat] alerts = alerts ++ [new]
                 /\ a_type new = "high_spending"
                 /\ ~ In (a_category new) (map a_category alerts).
Proof.
  unfold spike_alerts. simpl.
  destruct (Qltb (avg * (5 # 10)) (Db.b_total cat)); [|now left].
  destruct (existsb (String.eqb (Db.b_name cat)) (map a_category alerts)) eqn:Hseen;
    [now left|].
  right. eexists. split; [reflexivity|]. split; [reflexivity|].
  simpl. now apply not_listed.
Qed.

(** The second pass only appends, and what it appends are "high_spending"
    alerts whose names are new: distinct from each other and from the
    names of the alerts it started with. *)
Lemma spike_alerts_appends avg breakdown alerts :
  exists extra,
    spike_alerts avg breakdown alerts = alerts ++ extra
    /\ Forall (fun a => a_type a = "high_spending") extra
    /\ List.NoDup (map a_category extra)
    /\ (forall a, In a extra -> ~ In (a_category a) (map a_category alerts)).
Proof.
  revert alerts. induction breakdown as [|cat breakdown IH]; intros alerts.
  - exists []. simpl. rewrite app_nil_r. repeat split; try constructor. easy.
  - rewrite spike_alerts_cons.
    destruct (spike_alerts_one avg cat alerts) as [-> | (new & -> & Hnew & Hseen)];
      [apply IH|].
    destruct (IH (alerts ++ [new])) as (extra & Heq & Hkind & Hnd & Hfresh).
    exists (new :: extra). split; [|split; [|split]].
    + rewrite Heq, <- app_assoc. reflexivity.
    + constructor; [exact Hnew | exact Hkind].
    + simpl. constructor; [|exact Hnd].
      intros Hin. apply in_map_iff in Hin as (a & Hname & Hin).
      apply (Hfresh a Hin). rewrite map_app, in_app_iff. right. simpl. left.
      now rewrite Hname.
    + intros a [<- | Hin]; [exact Hseen|].
      intros Hold. apply (Hfresh a Hin). rewrite map_app, in_app_iff. now left.
Qed.

Lemma nodup_app_names (l1 l2 : list alert) :
  List.NoDup (map a_category l1) ->
  List.NoDup (map a_category l2) ->
  (forall a, In a l2 -> ~ In (a_category a) (map a_category l1)) ->
  List.NoDup (map a_category (l1 ++ l2)).
Proof.
  intros H1 H2 Hfresh. induction l1 as [|x l1 IH]; [exact H2|].
  simpl in *. apply List.NoDup_cons_iff in H1 as [Hx H1].
  constructor.
  - rewrite map_app, in_app_iff. intros [Hin|Hin]; [contradiction|].
    apply in_map_iff in Hin as (a & Hname & Hin).
    apply (Hfresh a Hin). left. now rewrite Hname.
  - apply IH; [exact H1|]. intros a Hin Hold. apply (Hfresh a Hin). now right.
Qed.

(** C6 (as amended): for every user state the returned list is the pass-1
    budget alerts followed by the pass-2 "high_spending" alerts; no pass-2
    alert carries the name of a pass-1 alert or of another pass-2 alert;
    and the list has at most one alert per category name whenever the
    budget-status rows of the user have pairwise distinct names. *)
Theorem C6_budget_alerts_take_precedence (user_id : Z) (today : date) (d : Db.db) :
  let status := Db.get_budget_status user_id (month_key today) d in
  exists pass1 pass2,
    detect_overspending user_id today d = pass1 ++ pass2
    /\ pass1 = budget_alerts status
    /\ Forall is_budget_alert pass1
    /\ Forall (fun a => a_type a = "high_spending") pass2
    /\ (forall a, In a pass2 -> ~ In (a_category a) (map a_category pass1))
    /\ List.NoDup (map a_category pass2)
    /\ (List.NoDup (map Db.bs_name status) ->
        List.NoDup (map a_category (detect_overspending user_id today d))).
Proof.
  intros status. unfold detect_overspending. fold status.
  set (pass1 := budget_alerts status).
  assert (exists pass2,
            match Db.get_monthly_trends user_id 3 today d with
            | [] => pass1
            | _ :: _ =>
                spike_alerts
                  (Qmean (map Db.m_expense (Db.get_monthly_trends user_id 3 today d)))
                  (Db.get_category_breakdown user_id (Some (first_of_month today)) None
                     Db.Expense d) pass1
            end = pass1 ++ pass2
            /\ Forall (fun a => a_type a = "high_spending") pass2
            /\ List.NoDup (map a_category pass2)
            /\ (forall a, In a pass2 -> ~ In (a_category a) (map a_category pass1)))
    as (pass2 & Heq & Hkind & Hnd & Hfresh).
  { destruct (Db.get_monthly_trends user_id 3 today d) as [|row rows].
    - exists []. rewrite app_nil_r. repeat split; try constructor. easy.
    - apply spike_alerts_appends. }
  exists pass1, pass2. rewrite Heq.
  split; [reflexivity|]. split; [reflexivity|].
  split; [apply budget_alerts_kinds|]. split; [exact Hkind|].
  split; [exact Hfresh|]. split; [exact Hnd|].
  intros Hstatus. apply nodup_app_names; [|exact Hnd|exact Hfresh].
  now apply budget_alerts_distinct.
Qed.

(** C6 fails as stated: with a budget on both categories named
    Food & Dining, both at 100%, the list holds two alerts for
    Food & Dining. *)
Lemma C6_two_alerts_for_one_name :
  map (fun a => (a_category a, a_type a))
      (detect_overspending 1 (mkDate 2026 11 4) two_food_budgets)
  = [("Food & Dining", "budget_exceeded"); ("Food & Dining", "budget_exceeded")]
  /\ ~ List.NoDup (map a_category
                     (detect_overspending 1 (mkDate 2026 11 4) two_food_budgets)).
Proof.
  assert (Hrun : map (fun a => (a_category a, a_type a))
                     (detect_overspending 1 (mkDate 2026 11 4) two_food_budgets)
                 = [("Food & Dining", "budget_exceeded");
                    ("Food & Dining", "budget_exceeded")])
    by (vm_compute; reflexivity).
  split; [exact Hrun|].
  assert (Hnames : map a_category
                     (detect_overspending 1 (mkDate 2026 11 4) two_food_budgets)
                   = map fst (map (fun a => (a_category a, a_type a))
                       (detect_overspending 1 (mkDate 2026 11 4) two_food_budgets)))
    by (rewrite map_map; reflexivity).
  rewrite Hnames, Hrun. simpl. intros Hnd.
  apply List.NoDup_cons_iff in Hnd as [Hfresh _]. apply Hfresh. now left.
Qed.

End Alerts.

(** ** Storage: budgets *)

Section Budgets.

Import Db.
Local Open Scope Q_scope.

Lemma spent_in_set_budget category_id user_id month c u limit d :
  spent_in category_id user_id month (set_budget c u limit d)
  = spent_in category_id user_id month d.
Proof. reflexivity. Qed.

Lemma budget_after_set category_id user_id limit d :
  budgets (set_budget category_id user_id limit d) !! (category_id, user_id) = Some limit.
Proof. unfold set_budget. simpl. apply lookup_insert_eq. Qed.

Lemma budget_row_percentage c limit spent :
  (0 < limit -> bs_percentage (budget_status_row c limit spent) = spent / limit * 100)
  /\ (limit <= 0 -> bs_percentage (budget_status_row c limit spent) = 0).
Proof.
  unfold budget_status_row. simpl. destruct (Qltb 0 limit) eqn:Hpos; split; intros H.
  - reflexivity.
  - apply Qltb_lt in Hpos. exfalso. now apply (Qlt_not_le _ _ Hpos).
  - apply Qltb_ge in Hpos. exfalso. now apply (Qlt_not_le _ _ H).
  - reflexivity.
Qed.

(** C8: after set_budget(category, user, L) on an expense category visible
    to the user, get_budget_status of the user reports the category with
    monthly_limit = L, spent = its expense total of the month,
    remaining = L - spent, percentage = spent / L * 100 when L > 0 and 0
    when L <= 0; this holds of every row reported for the category, and
    whatever limit was stored before. *)
Theorem C8_set_budget_then_status (c : category) (user_id : Z) (limit : Q)
    (month : Z * Z) (d : db) :
  In c (categories d) ->
  c_type c = Expense ->
  visible_to user_id c = true ->
  let d' := set_budget (c_id c) user_id limit d in
  let spent := spent_in (c_id c) user_id month d in
  let reported item :=
    bs_monthly_limit item = limit
    /\ bs_spent item = spent
    /\ bs_remaining item = limit - spent
    /\ (0 < limit -> bs_percentage item = spent / limit * 100)
    /\ (limit <= 0 -> bs_percentage item = 0) in
  (exists item,
      In item (get_budget_status user_id month d')
      /\ bs_id item = c_id c /\ bs_name item = c_name c /\ reported item)
  /\ (forall item,
         In item (get_budget_status user_id month d') ->
         bs_id item = c_id c -> reported item).
Proof.
  intros Hin Hty Hvis d' spent reported.
  assert (Hrow : forall c', c_id c' = c_id c ->
                   reported (budget_status_row c' limit (spent_in (c_id c') user_id month d'))).
  { intros c' Hid. unfold reported. rewrite Hid.
    unfold d'. rewrite spent_in_set_budget. fold spent.
    repeat split; try reflexivity; apply budget_row_percentage. }
  split.
  - exists (budget_status_row c limit (spent_in (c_id c) user_id month d')).
    split; [|split; [reflexivity|split; [reflexivity|now apply Hrow]]].
    unfold get_budget_status. apply in_flat_map. exists c. split; [exact Hin|].
    rewrite Hvis, Hty. cbn [andb ttype_eqb]. unfold d'.
    rewrite budget_after_set. now left.
  - intros item Hitem Hid.
    unfold get_budget_status in Hitem. apply in_flat_map in Hitem as (c' & _ & Hc').
    destruct (visible_to user_id c' && ttype_eqb (c_type c') Expense); [|easy].
    destruct (budgets d' !! (c_id c', user_id)) as [limit'|] eqn:Hlook; [|easy].
    destruct Hc' as [<- | []]. simpl in Hid.
    unfold d' in Hlook. rewrite Hid, budget_after_set in Hlook.
    injection Hlook as <-. now apply Hrow.
Qed.

Lemma C8_set_budget_then_status_witness :
  let d := (add_transaction 40 "Lunch" 1 Expense (mkDate 2026 11 2) 1 registered).2 in
  let d' := set_budget (c_id food) 1 50 (set_budget (c_id food) 1 10 d) in
  let reported item :=
    bs_monthly_limit item = 50
    /\ bs_spent item = spent_in 1 1 (2026, 11)%Z (set_budget (c_id food) 1 10 d)
    /\ bs_remaining item = 50 - spent_in 1 1 (2026, 11)%Z (set_budget (c_id food) 1 10 d)
    /\ (0 < 50 -> bs_percentage item
                  = spent_in 1 1 (2026, 11)%Z (set_budget (c_id food) 1 10 d) / 50 * 100)
    /\ (50 <= 0 -> bs_percentage item = 0) in
  (exists item,
      In item (get_budget_status 1 (2026, 11)%Z d')
      /\ bs_id item = c_id food /\ bs_name item = c_name food /\ reported item)
  /\ (forall item,
         In item (get_budget_status 1 (2026, 11)%Z d') ->
         bs_id item = c_id food -> reported item).
Proof.
  apply (C8_set_budget_then_status food 1 50 (2026, 11)%Z
           (set_budget (c_id food) 1 10
              (add_transaction 40 "Lunch" 1 Expense (mkDate 2026 11 2) 1 registered).2)).
  - vm_compute. left. reflexivity.
  - reflexivity.
  - reflexivity.
Defined.

End Budgets.

(** ** Chat assistant *)

Section AssistantFacts.

Import Assistant.

Lemma insert_sorted_In {A} (leb : A -> A -> bool) x y l :
  In y (insert_sorted leb x l) <-> y = x \/ In y l.
Proof.
  induction l as [|z l IH]; simpl.
  - intuition.
  - destruct (leb z x); simpl; rewrite ?IH; intuition.
Qed.

Lemma sort_by_In {A} (leb : A -> A -> bool) l x :
  In x (sort_by leb l) <-> In x l.
Proof.
  unfold sort_by.
  assert (Hgen : forall acc,
             In x (fold_left (fun acc y => insert_sorted leb y acc) l acc)
             <-> In x acc \/ In x l).
  { induction l as [|y l IH]; intros acc; simpl; [intuition|].
    rewrite IH, insert_sorted_In. intuition. }
  rewrite Hgen. simpl. intuition.
Qed.

Lemma get_categories_In ty user_id d c :
  In c (Db.get_categories (Some ty) user_id d)
  <-> In c (Db.categories d)
      /\ Db.visible_to user_id c = true /\ Db.c_type c = ty.
Proof.
  unfold Db.get_categories. rewrite sort_by_In, filter_In, andb_true_iff.
  assert (Hty : Db.ttype_eqb (Db.c_type c) ty = true <-> Db.c_type c = ty)
    by (destruct (Db.c_type c), ty; simpl; intuition congruence).
  rewrite Hty. intuition.
Qed.

Lemma get_category_by_name_In name user_id d c :
  Db.get_category_by_name name user_id d = Some c ->
  In c (Db.categories d) /\ Db.c_name c = name /\ Db.visible_to user_id c = true.
Proof.
  unfold Db.get_category_by_name. intros Hfind.
  apply find_some in Hfind as [Hin Hc].
  apply andb_true_iff in Hc as [Hname Hvis]. apply String.eqb_eq in Hname. auto.
Qed.

(** Without an income category, no category found by name is an income. *)
Lemma found_is_not_income name user_id d c :
  Db.get_categories (Some Db.Income) user_id d = [] ->
  Db.get_category_by_name name user_id d = Some c ->
  is_income c = false.
Proof.
  intros Hnone Hfound. apply get_category_by_name_In in Hfound as (Hin & _ & Hvis).
  destruct (is_income c) eqn:Hinc; [|reflexivity].
  assert (In c (Db.get_categories (Some Db.Income) user_id d)) as Habs.
  { apply get_categories_In. repeat split; try assumption.
    unfold is_income in Hinc. now destruct (Db.c_type c). }
  rewrite Hnone in Habs. destruct Habs.
Qed.

(** *** The adding handlers *)

(** C4 (the code at the failing input): "spent 100 on salary" is an
    expense of 100 described as "salary"; for a registered user the expense
    handler finds the category Salary by name, an income category, and
    records the expense under it: the lookup is not filtered to expense
    categories. *)
Theorem C4_expense_lands_in_income_category (e : env) :
  _extract_expense "spent 100 on salary" = Some (mkEntry 100 (Some "salary"))
  /\ exists salary r d',
       Db.get_category_by_name "Salary" 1 registered = Some salary
       /\ Db.c_type salary = Db.Income
       /\ _handle_add_expense e (mkEntry 100 (Some "salary")) 1 registered = Ok (r, d')
       /\ action r = "expense_added"
       /\ Db.transactions d'
          = [Db.mkTransaction 1 100 "Salary" (Db.c_id salary) Db.Expense (today e) 1].
Proof.
  split; [vm_compute; reflexivity|].
  do 3 eexists. split; [vm_compute; reflexivity|].
  split; [reflexivity|]. split; [vm_compute; reflexivity|].
  split; reflexivity.
Qed.

(** The fallback of the income handler picks among the categories given. *)
Lemma income_fallback_In description categories c :
  income_fallback description categories = Ok (Some c) -> In c categories.
Proof.
  unfold income_fallback. destruct description as [text|]; [|discriminate].
  destruct (Text.contains "salary" (Text.lower text));
    destruct categories as [|first rest]; try discriminate.
  - match goal with |- context [find ?f ?l] => destruct (find f l) as [s|] eqn:Hs end;
      simpl; intros [= <-].
    + now apply find_some in Hs as [Hs _].
    + now left.
  - simpl. intros [= <-]. now left.
Qed.

(** The income handler does filter: the category it records under is an
    income category visible to the user. *)
Lemma income_handler_uses_income_category e data user_id d r d' :
  _handle_add_income e data user_id d = Ok (r, d') ->
  action r = "income_added" ->
  exists c,
    In c (Db.categories d) /\ Db.c_type c = Db.Income
    /\ Db.visible_to user_id c = true
    /\ d' = (Db.add_transaction (e_amount data) (titled (e_description data) "Income")
               (Db.c_id c) Db.Income (today e) user_id d).2.
Proof.
  unfold _handle_add_income.
  destruct (Categorizer.predict (model e) (e_description data)) as [name conf].
  set (by_name := Db.get_category_by_name name user_id d).
  set (incomes := Db.get_categories (Some Db.Income) user_id d).
  set (found := if match by_name with
                   | Some category => is_income category
                   | None => false
                   end
                then Ok by_name else income_fallback (e_description data) incomes).
  assert (Hpick : forall c, found = Ok (Some c) ->
            In c (Db.categories d) /\ Db.c_type c = Db.Income
            /\ Db.visible_to user_id c = true).
  { intros c. unfold found.
    assert (Hfallback : income_fallback (e_description data) incomes = Ok (Some c) ->
              In c (Db.categories d) /\ Db.c_type c = Db.Income
              /\ Db.visible_to user_id c = true).
    { intros Hfb. apply income_fallback_In in Hfb.
      apply get_categories_In in Hfb. tauto. }
    destruct by_name as [category|] eqn:Hby; [|exact Hfallback].
    destruct (is_income category) eqn:Hinc; [|exact Hfallback].
    intros [= <-]. apply get_category_by_name_In in Hby as (Hin & _ & Hvis).
    unfold is_income in Hinc. destruct (Db.c_type category) eqn:Hty; [discriminate|].
    auto. }
  destruct found as [[c|]|x]; try discriminate.
  - intros [= <- <-] _. exists c. specialize (Hpick c eq_refl). intuition.
  - intros [= <- <-]. discriminate.
Qed.

(** The expense handler raises when the predicted category is unknown and
    the user has no expense category. *)
Lemma expense_handler_raises_without_category e data user_id d :
  Db.get_category_by_name
    (Categorizer.predict (model e) (e_description data)).1 user_id d = None ->
  Db.get_categories (Some Db.Expense) user_id d = [] ->
  _handle_add_expense e data user_id d = Raise IndexError.
Proof.
  unfold _handle_add_expense.
  destruct (Categorizer.predict (model e) (e_description data)) as [name conf]. simpl.
  intros -> ->. reflexivity.
Qed.


(** Without an income category, a description that does not mention a
    salary gets the error response, and nothing is written. *)
Lemma income_handler_reports_no_category e amount text user_id d :
  Db.get_categories (Some Db.Income) user_id d = [] ->
  Text.contains "salary" (Text.lower text) = false ->
  _handle_add_income e (mkEntry amount (Some text)) user_id d
  = Ok (mkResult NoIncomeCategory "error" NoData, d).
Proof.
  intros Hnone Hplain. unfold _handle_add_income. cbn [e_amount e_description].
  destruct (Categorizer.predict (model e) (Some text)) as [name conf].
  destruct (Db.get_category_by_name name user_id d) as [c|] eqn:Hby.
  - rewrite (found_is_not_income _ _ _ _ Hnone Hby), Hnone.
    unfold income_fallback. rewrite Hplain. reflexivity.
  - rewrite Hnone. unfold income_fallback. rewrite Hplain. reflexivity.
Qed.

(** C10 (the code at the failing input): without an income category, an
    income whose description mentions a salary makes the income handler
    raise IndexError, where the claim has it return the error response. *)
Theorem C10_income_handler_raises (e : env) (amount : Q) (text : string)
    (user_id : Z) (d : Db.db) :
  Db.get_categories (Some Db.Income) user_id d = [] ->
  Text.contains "salary" (Text.lower text) = true ->
  _handle_add_income e (mkEntry amount (Some text)) user_id d = Raise IndexError.
Proof.
  intros Hnone Hsalary. unfold _handle_add_income. cbn [e_amount e_description].
  destruct (Categorizer.predict (model e) (Some text)) as [name conf].
  destruct (Db.get_category_by_name name user_id d) as [c|] eqn:Hby.
  - rewrite (found_is_not_income _ _ _ _ Hnone Hby), Hnone.
    unfold income_fallback. rewrite Hsalary. reflexivity.
  - rewrite Hnone. unfold income_fallback. rewrite Hsalary. reflexivity.
Qed.

Lemma C10_income_handler_raises_witness :
  _handle_add_income (offline (mkDate 2026 11 4) 0) (mkEntry 5000 (Some "salary")) 1 Db.empty
  = Raise IndexError.
Proof.
  apply (C10_income_handler_raises (offline (mkDate 2026 11 4) 0) 5000 "salary" 1 Db.empty).
  - reflexivity.
  - reflexivity.
Defined.

(** The message "received 5000 salary" reaches the handler with that
    description, and the deterministic path raises. *)
Example received_salary_raises :
  _extract_income "received 5000 salary" = Some (mkEntry 5000 (Some "salary"))
  /\ _process_with_regex (offline (mkDate 2026 11 4) 0) "received 5000 salary" 1 Db.empty
     = Raise IndexError.
Proof. split; vm_compute; reflexivity. Qed.

(** *** The dispatcher *)

Lemma hi_matches_greeting : _match_intent "hi" greeting = true.
Proof. vm_compute. reflexivity. Qed.

Lemma choice_In e l : l <> [] -> In (choice e l) l.
Proof.
  intros Hl. unfold choice. apply nth_In. apply Nat.mod_upper_bound.
  destruct l; [contradiction | simpl; lia].
Qed.

(** C9: on the deterministic path the message "hi" matches the greeting
    intent, the response is one of the three greeting templates, the
    action is "greeting", and the database is returned as it was. *)
Theorem C9_hi_is_greeted (e : env) (user_id : Z) (d : Db.db) :
  _match_intent "hi" greeting = true
  /\ exists text,
       In text greetings
       /\ _process_with_regex e "hi" user_id d
          = Ok (mkResult (Said text) "greeting" NoData, d).
Proof.
  split; [exact hi_matches_greeting|].
  exists (choice e greetings). split.
  - apply choice_In. discriminate.
  - unfold _process_with_regex. rewrite hi_matches_greeting. reflexivity.
Qed.

(** Without a credential and without a model, [process_message] is the
    deterministic path on the stripped, lower-cased message. *)
Lemma process_message_without_key e self message user_id d :
  has_model self = false ->
  Db.get_setting "gemini_api_key" user_id d = None ->
  (process_message e self message user_id d).2
  = _process_with_regex e (Text.lower (Text.strip message)) user_id d.
Proof.
  intros Hmodel Hkey. unfold process_message, ensure_model.
  rewrite Hkey, Hmodel. reflexivity.
Qed.

Example hi_through_process_message :
  (process_message (offline (mkDate 2026 11 4) 1) fresh "  Hi " 1 registered).2
  = Ok (mkResult (Said (nth 1 greetings EmptyString)) "greeting" NoData, registered).
Proof. vm_compute. reflexivity. Qed.

(** C5 (as amended): while a remote assistant is configured, a remote call
    that raises (error, timeout) makes process_message return what the
    deterministic path returns for the same message and user; a reply in
    which no JSON object is found, or whose object does not parse, is
    returned as a "chat" response with the raw text, without raising and
    with the database unchanged. *)
Theorem C5_remote_failure (e : env) (self : assistant) (message : string)
    (user_id : Z) (d : Db.db) :
  ensure_model e self (Db.get_setting "gemini_api_key" user_id d) = true ->
  let cleaned := Text.lower (Text.strip message) in
  let reply := generate_content e (build_prompt e cleaned user_id d) in
  (reply = Fails ->
   (process_message e self message user_id d).2
   = _process_with_regex e cleaned user_id d)
  /\ (forall text fragment,
         reply = Replies text fragment ->
         fragment = NoJson \/ fragment = Unparseable ->
         (process_message e self message user_id d).2
         = Ok (mkResult (Said text) "chat" NoData, d)).
Proof.
  intros Hready cleaned reply.
  assert (Hrun : (process_message e self message user_id d).2
                 = _process_with_gemini e cleaned user_id d).
  { unfold process_message. cbv zeta. rewrite Hready. reflexivity. }
  rewrite Hrun. unfold _process_with_gemini. fold reply. split.
  - intros ->. reflexivity.
  - intros text fragment -> [-> | ->]; reflexivity.
Qed.

Lemma C5_remote_failure_witness :
  let e := garbled (mkDate 2026 11 4) in
  let cleaned := Text.lower (Text.strip "Hi") in
  let reply := generate_content e (build_prompt e cleaned 1 with_key) in
  (reply = Fails ->
   (process_message e fresh "Hi" 1 with_key).2 = _process_with_regex e cleaned 1 with_key)
  /\ (forall text fragment,
         reply = Replies text fragment ->
         fragment = NoJson \/ fragment = Unparseable ->
         (process_message e fresh "Hi" 1 with_key).2
         = Ok (mkResult (Said text) "chat" NoData, with_key)).
Proof.
  apply (C5_remote_failure (garbled (mkDate 2026 11 4)) fresh "Hi" 1 with_key).
  vm_compute. reflexivity.
Defined.

(** C5 fails as stated: with the remote assistant configured and a reply
    whose JSON object does not parse, process_message("hi") returns the raw
    reply as a "chat" response, not the greeting of the deterministic
    path. *)
Lemma C5_garbled_reply_is_returned :
  ensure_model (garbled (mkDate 2026 11 4)) fresh
    (Db.get_setting "gemini_api_key" 1 with_key) = true
  /\ (process_message (garbled (mkDate 2026 11 4)) fresh "hi" 1 with_key).2
     = Ok (mkResult (Said "Sure! {amount: oops") "chat" NoData, with_key)
  /\ _process_with_regex (garbled (mkDate 2026 11 4)) "hi" 1 with_key
     = Ok (mkResult (Said (nth 0 greetings EmptyString)) "greeting" NoData, with_key)
  /\ (process_message (garbled (mkDate 2026 11 4)) fresh "hi" 1 with_key).2
     <> _process_with_regex (garbled (mkDate 2026 11 4)) "hi" 1 with_key.
Proof.
  assert (H1 : (process_message (garbled (mkDate 2026 11 4)) fresh "hi" 1 with_key).2
               = Ok (mkResult (Said "Sure! {amount: oops") "chat" NoData, with_key))
    by (vm_compute; reflexivity).
  assert (H2 : _process_with_regex (garbled (mkDate 2026 11 4)) "hi" 1 with_key
               = Ok (mkResult (Said (nth 0 greetings EmptyString)) "greeting" NoData,
                     with_key))
    by (vm_compute; reflexivity).
  split; [vm_compute; reflexivity|]. split; [exact H1|]. split; [exact H2|].
  rewrite H1, H2. intros [= Habs].
Qed.

(** When the remote call fails the result is that of the deterministic
    path, exception included: for a user without any category,
    "spent 5 on tea" raises. *)
Example remote_failure_then_raise :
  (process_message (unreachable (mkDate 2026 11 4)) fresh "spent 5 on tea" 1
     (Db.set_setting "gemini_api_key" "secret" 1 Db.empty)).2
  = Raise IndexError.
Proof. vm_compute. reflexivity. Qed.

End AssistantFacts.

(** * Further properties of the code *)

(** ** Categorizer: normalization and the two ends of [predict] *)

Section Normalization.

Import Categorizer.

Lemma chars_append a b : chars (a ++ b)%string = chars a ++ chars b.
Proof.
  induction a as [|c a IH]; simpl; [reflexivity|]. unfold chars in *. simpl.
  now rewrite IH.
Qed.

Lemma chars_smap f s : chars (Text.smap f s) = map f (chars s).
Proof.
  induction s as [|c s IH]; [reflexivity|]. unfold chars in *. simpl. now rewrite IH.
Qed.

Lemma chars_of_list l : chars (string_of_list_ascii l) = l.
Proof. apply list_ascii_of_string_of_list_ascii. Qed.

Lemma of_list_chars s : string_of_list_ascii (chars s) = s.
Proof. apply string_of_list_ascii_of_string. Qed.

Lemma lstrip_all_spaces s : all_spaces s = true -> Text.lstrip s = EmptyString.
Proof.
  induction s as [|c s IH]; [reflexivity|].
  unfold all_spaces, chars. simpl. intros Hall.
  apply andb_true_iff in Hall as [Hc Hs]. rewrite Hc. now apply IH.
Qed.

(** X1: a description made of white space only (or empty) is answered
    ("Other", 0.0) without consulting the keyword table or the model. *)
Theorem blank_description_is_other (model : classifier) (description : string) :
  all_spaces description = true ->
  predict model (Some description) = ("Other", 0%Q).
Proof.
  intros Hblank. unfold predict, Text.strip.
  rewrite (lstrip_all_spaces _ Hblank). simpl.
  now rewrite orb_true_r.
Qed.

Lemma blank_description_is_other_witness :
  predict (Some (fun _ => Some ("Shopping", 1%Q))) (Some "   ") = ("Other", 0%Q).
Proof.
  apply (blank_description_is_other (Some (fun _ => Some ("Shopping", 1%Q))) "   ").
  reflexivity.
Defined.

(** Every character, once lower-cased and filtered by [_clean_text], is
    white space, a lower-case letter or a digit. *)
Lemma cleaned_char x :
  let y := keep_or_space (Text.lower_char x) in
  Text.is_space y = true \/ (Text.is_lower y || Text.is_digit y) = true.
Proof.
  destruct x as [[] [] [] [] [] [] [] []]; vm_compute; auto.
Qed.

Lemma flush_words (P : ascii -> Prop) cur :
  Forall P cur ->
  Forall (fun w => w <> EmptyString /\ Forall P (chars w))
         match cur with
         | [] => []
         | _ :: _ => [string_of_list_ascii (rev cur)]
         end.
Proof.
  intros Hcur. destruct cur as [|c cur]; constructor; [|constructor].
  split.
  - intros Hempty. apply (f_equal chars) in Hempty. rewrite chars_of_list in Hempty.
    simpl in Hempty. now destruct (rev cur).
  - rewrite chars_of_list. apply Forall_rev. exact Hcur.
Qed.

(** The words of [split]: none is empty, and their characters are the
    characters of the text that are not white space. *)
Lemma split_go_words (P : ascii -> Prop) s cur :
  Forall P cur ->
  Forall (fun c => Text.is_space c = false -> P c) (chars s) ->
  Forall (fun w => w <> EmptyString /\ Forall P (chars w)) (Text.split_go cur s).
Proof.
  revert cur. induction s as [|c s IH]; intros cur Hcur Hs.
  - simpl. now apply flush_words.
  - unfold chars in Hs. simpl in Hs. apply Forall_cons_iff in Hs as [Hc Hs].
    simpl. destruct (Text.is_space c) eqn:Hsp.
    + apply Forall_app. split; [now apply flush_words|].
      apply IH; [constructor | exact Hs].
    + apply IH; [|exact Hs]. constructor; [now apply Hc | exact Hcur].
Qed.

Lemma join_chars (P : ascii -> Prop) ws :
  P " "%char ->
  Forall (fun w => Forall P (chars w)) ws ->
  Forall P (chars (Text.join " " ws)).
Proof.
  intros Hsp. induction ws as [|w ws IH]; intros Hws; [constructor|].
  apply Forall_cons_iff in Hws as [Hw Hws].
  destruct ws as [|w' ws]; [exact Hw|].
  change (Text.join " " (w :: w' :: ws))
    with (w ++ " " ++ Text.join " " (w' :: ws))%string.
  rewrite !chars_append. apply Forall_app. split; [exact Hw|].
  apply Forall_app. split; [repeat constructor; exact Hsp | now apply IH].
Qed.

(** The words [_clean_text] joins. *)
Lemma cleaned_words text :
  Forall (fun w => w <> EmptyString
                   /\ Forall (fun c => Text.is_space c = false
                                       /\ (Text.is_lower c || Text.is_digit c) = true)
                             (chars w))
         (Text.split (Text.smap keep_or_space (Text.lower text))).
Proof.
  apply split_go_words; [constructor|].
  unfold Text.lower. rewrite !chars_smap, map_map.
  apply List.Forall_forall. intros y Hy Hns.
  apply in_map_iff in Hy as (x & <- & _).
  split; [exact Hns|]. destruct (cleaned_char x) as [Hsp|Hok]; [congruence|exact Hok].
Qed.

(** The characters of a normalized text. *)
Lemma cleaned_chars text : Forall normalized_char (chars (_clean_text text)).
Proof.
  unfold _clean_text. apply join_chars; [now left|].
  eapply List.Forall_impl; [|apply cleaned_words].
  intros w [_ Hw]. eapply List.Forall_impl; [|exact Hw].
  intros c [_ Hc]. now right.
Qed.

(** A word without white space is read whole by [split]. *)
Lemma split_go_word w rest cur :
  Forall (fun c => Text.is_space c = false) (chars w) ->
  Text.split_go cur (w ++ rest)%string = Text.split_go (rev (chars w) ++ cur) rest.
Proof.
  revert cur. induction w as [|c w IH]; intros cur Hw; [reflexivity|].
  unfold chars in Hw. simpl in Hw. apply Forall_cons_iff in Hw as [Hc Hw].
  simpl. rewrite Hc, IH by exact Hw.
  unfold chars. simpl. now rewrite <- app_assoc.
Qed.

Lemma append_empty s : (s ++ EmptyString)%string = s.
Proof.
  induction s as [|c s IH]; [reflexivity|].
  change (String c (s ++ EmptyString)%string = String c s). now rewrite IH.
Qed.

Lemma flush_word w :
  w <> EmptyString ->
  Text.split_go (rev (chars w) ++ []) EmptyString = [w].
Proof.
  intros Hw. rewrite app_nil_r. simpl.
  destruct (rev (chars w)) as [|c l] eqn:Hrev.
  - exfalso. apply Hw. apply (f_equal (@rev ascii)) in Hrev.
    rewrite rev_involutive in Hrev. simpl in Hrev.
    rewrite <- (of_list_chars w), Hrev. reflexivity.
  - rewrite <- Hrev, rev_involutive, of_list_chars. reflexivity.
Qed.

(** Splitting what [join] made of words gives the words back. *)
Lemma split_join ws :
  Forall (fun w => w <> EmptyString
                   /\ Forall (fun c => Text.is_space c = false) (chars w)) ws ->
  Text.split (Text.join " " ws) = ws.
Proof.
  unfold Text.split. induction ws as [|w ws IH]; intros Hws; [reflexivity|].
  apply Forall_cons_iff in Hws as [[Hne Hw] Hws].
  destruct ws as [|w' ws].
  - simpl. rewrite <- (append_empty w) at 1. rewrite split_go_word by exact Hw.
    now apply flush_word.
  - change (Text.join " " (w :: w' :: ws))
      with (w ++ String " " (Text.join " " (w' :: ws)))%string.
    rewrite split_go_word by exact Hw.
    change (Text.split_go (rev (chars w) ++ []) (String " " (Text.join " " (w' :: ws))))
      with (Text.split_go (rev (chars w) ++ []) EmptyString
            ++ Text.split_go [] (Text.join " " (w' :: ws))).
    rewrite flush_word by exact Hne. rewrite IH by exact Hws. reflexivity.
Qed.

Lemma smap_fixed f s : Forall (fun c => f c = c) (chars s) -> Text.smap f s = s.
Proof.
  induction s as [|c s IH]; [reflexivity|].
  unfold chars. simpl. intros Hs. apply Forall_cons_iff in Hs as [-> Hs].
  now rewrite IH.
Qed.

Lemma normalized_char_fixed c :
  normalized_char c -> Text.lower_char c = c /\ keep_or_space c = c.
Proof.
  intros [-> | Hc]; [split; reflexivity|]. revert Hc.
  destruct c as [[] [] [] [] [] [] [] []]; vm_compute;
    intros Hc; try discriminate; split; reflexivity.
Qed.

(** A normalized text is in lower case already. *)
Lemma clean_text_lower text : Text.lower (_clean_text text) = _clean_text text.
Proof.
  apply smap_fixed. eapply List.Forall_impl; [|apply cleaned_chars].
  intros c Hc. now apply normalized_char_fixed.
Qed.

(** X2: the text [_clean_text] returns consists of lower-case letters,
    digits and spaces only, so the [text.lower()] of [_keyword_match]
    leaves it as it is. *)
Theorem clean_text_alphabet (text : string) :
  Forall normalized_char (chars (_clean_text text))
  /\ Text.lower (_clean_text text) = _clean_text text.
Proof.
  split; [apply cleaned_chars | apply clean_text_lower].
Qed.

(** X3: [_clean_text] is idempotent: a normalized text is left as it is. *)
Theorem clean_text_idempotent (text : string) :
  _clean_text (_clean_text text) = _clean_text text.
Proof.
  unfold _clean_text at 1. rewrite clean_text_lower.
  rewrite smap_fixed.
  - unfold _clean_text. rewrite split_join; [reflexivity|].
    eapply List.Forall_impl; [|apply cleaned_words].
    intros w [Hne Hw]. split; [exact Hne|].
    eapply List.Forall_impl; [|exact Hw]. now intros c [Hc _].
  - eapply List.Forall_impl; [|apply cleaned_chars].
    intros c Hc. now apply normalized_char_fixed.
Qed.

Lemma table_keywords_lower :
  forallb (fun '(_, keywords) =>
             forallb (fun keyword => String.eqb (Text.lower keyword) keyword) keywords)
          TRAINING_DATA = true.
Proof. vm_compute. reflexivity. Qed.

Lemma scan_finds table text category keywords :
  In (category, keywords) table ->
  hits keywords text ->
  exists winner, keyword_scan table text = Some winner.
Proof.
  induction table as [|[c kws] rest IH]; [easy|].
  intros [Heq | Hin] Hhit; simpl.
  - injection Heq as -> ->. apply any_keyword_in_hits in Hhit. rewrite Hhit. eauto.
  - destruct (any_keyword_in kws text); [eauto | now apply IH].
Qed.

(** X4: when a keyword of the table occurs in the normalized description,
    the answer is the first category of the table with such a keyword, with
    confidence 0.95, whatever the statistical model says or whether there
    is one. *)
Theorem keyword_overrides_model (description category keyword : string)
    (keywords : list string) :
  Text.strip description <> EmptyString ->
  In (category, keywords) TRAINING_DATA ->
  In keyword keywords ->
  Text.contains keyword (_clean_text description) = true ->
  exists winner,
    first_match TRAINING_DATA (_clean_text description) winner
    /\ forall model, predict model (Some description) = (winner, confidence_keyword).
Proof.
  intros Hblank Hrow Hkw Hocc.
  assert (Hlower : Text.lower keyword = keyword).
  { pose proof table_keywords_lower as Hall.
    rewrite forallb_forall in Hall. specialize (Hall _ Hrow). simpl in Hall.
    rewrite forallb_forall in Hall. now apply String.eqb_eq, Hall. }
  destruct (scan_finds TRAINING_DATA (_clean_text description) category keywords Hrow)
    as [winner Hscan].
  { exists keyword. split; [exact Hkw | now rewrite Hlower]. }
  exists winner. split; [now apply keyword_scan_first_match|].
  intros model. apply predict_keyword_hit; [|now rewrite clean_text_lower].
  apply orb_false_iff. split; apply String.eqb_neq; [|exact Hblank].
  intros ->. now apply Hblank.
Qed.

Lemma keyword_overrides_model_witness :
  exists winner,
    first_match TRAINING_DATA (_clean_text "Paid the GAS-bill!!") winner
    /\ forall model,
         predict model (Some "Paid the GAS-bill!!") = (winner, confidence_keyword).
Proof.
  apply (keyword_overrides_model "Paid the GAS-bill!!" "Transport" "gas"
           (nth 1 (map snd TRAINING_DATA) [])).
  - vm_compute. discriminate.
  - vm_compute. right. left. reflexivity.
  - vm_compute. do 10 right. left. reflexivity.
  - vm_compute. reflexivity.
Defined.

End Normalization.

(** ** Forecast engine: the window, the weights and the bounds *)

Section ForecastBounds.

Import Predictor.
Local Open Scope Q_scope.

(** X5: when the six-month window holds seven or more calendar months,
    [np.average] gets more values than the six weights and raises
    TypeError, so [predict_next_month_expenses] raises, and
    [get_recommendations], which calls it, raises too. *)
Theorem seven_months_raise (user_id : Z) (today : date) (d : Db.db) :
  (7 <= length (Db.get_monthly_trends user_id 6 today d))%nat ->
  predict_next_month_expenses user_id today d = Raise TypeError
  /\ get_recommendations user_id today d = Raise TypeError.
Proof.
  intros Hlen.
  assert (Hraise : predict_next_month_expenses user_id today d = Raise TypeError)
    by (now apply predict_from_raises).
  split; [exact Hraise|]. unfold get_recommendations. now rewrite Hraise.
Qed.

Lemma seven_months_raise_witness :
  predict_next_month_expenses 1 (mkDate 2026 11 4) seven_months = Raise TypeError
  /\ get_recommendations 1 (mkDate 2026 11 4) seven_months = Raise TypeError.
Proof.
  apply (seven_months_raise 1 (mkDate 2026 11 4) seven_months).
  vm_compute. lia.
Defined.

Lemma Qsum_from a l : fold_left Qplus l a == a + Qsum l.
Proof.
  unfold Qsum. revert a. induction l as [|x l IH]; intros a; simpl.
  - ring.
  - rewrite IH, (IH (0 + x)). ring.
Qed.

Lemma Qsum_cons x l : Qsum (x :: l) == x + Qsum l.
Proof. unfold Qsum at 1. simpl. rewrite Qsum_from. ring. Qed.

(** A weighted sum lies between the bounds of the values times the sum of
    the weights, when no weight is negative. *)
Lemma weighted_sum_bounds lo hi values weights :
  length values = length weights ->
  Forall (fun w => 0 <= w) weights ->
  Forall (fun v => lo <= v <= hi) values ->
  lo * Qsum weights <= Qsum (products values weights)
  /\ Qsum (products values weights) <= hi * Qsum weights.
Proof.
  revert weights. induction values as [|v values IH]; intros [|w weights] Hlen Hw Hv;
    try discriminate.
  - simpl. unfold Qsum. simpl. split; rewrite Qmult_0_r; apply Qle_refl.
  - apply Forall_cons_iff in Hw as [Hw0 Hw]. apply Forall_cons_iff in Hv as [[Hlo Hhi] Hv].
    injection Hlen as Hlen. destruct (IH weights Hlen Hw Hv) as [IHlo IHhi].
    simpl products. rewrite !Qsum_cons. split.
    + rewrite Qmult_plus_distr_r. apply Qplus_le_compat; [|exact IHlo].
      now apply Qmult_le_compat_r.
    + rewrite Qmult_plus_distr_r. apply Qplus_le_compat; [|exact IHhi].
      now apply Qmult_le_compat_r.
Qed.

Lemma weights_for_positive n :
  (1 <= n <= 6)%nat ->
  Forall (fun w => 0 <= w) (weights_for n) /\ 0 < Qsum (weights_for n).
Proof.
  intros Hn.
  destruct n as [|[|[|[|[|[|[|n]]]]]]]; try lia;
    (split; [repeat constructor; vm_compute; discriminate | vm_compute; reflexivity]).
Qed.

(** X6: the weights of two to six months are positive, sum to 1 and grow
    towards the most recent month, and each weighted average lies between
    the smallest and the largest monthly value: the forecast never leaves
    the range of the history. *)
Theorem forecast_within_history (df : list Db.monthly) (lo hi : Q) :
  (2 <= length df <= 6)%nat ->
  Forall (fun row => lo <= Db.m_expense row <= hi) df ->
  Qsum (weights_for (length df)) == 1
  /\ StronglySorted Qlt (weights_for (length df))
  /\ exists p expense,
       predict_from df = Ok p
       /\ predicted_expense p = round2 expense
       /\ message p
          = _get_prediction_message (trend p) expense
              (Qsum (products (map Db.m_income df) (weights_for (length df)))
               / Qsum (weights_for (length df)))
       /\ lo <= expense <= hi.
Proof.
  intros Hn Hrange.
  destruct (weights_for_positive (length df)) as [Hpos Hsum]; [lia|].
  split; [|split].
  - destruct (length df) as [|[|[|[|[|[|[|n]]]]]]]; try lia; vm_compute; reflexivity.
  - destruct (length df) as [|[|[|[|[|[|[|n]]]]]]]; try lia;
      repeat constructor; vm_compute; reflexivity.
  - eexists. eexists. split; [apply predict_from_returns; lia|].
    split; [reflexivity|]. split; [reflexivity|].
    destruct (weighted_sum_bounds lo hi (map Db.m_expense df) (weights_for (length df)))
      as [Hlo Hhi].
    + rewrite length_map, weights_for_length; lia.
    + exact Hpos.
    + apply Forall_map. exact Hrange.
    + split.
      * apply Qle_shift_div_l; [exact Hsum | exact Hlo].
      * apply Qle_shift_div_r; [exact Hsum | exact Hhi].
Qed.

Lemma forecast_within_history_witness :
  Qsum (weights_for (length three_months)) == 1
  /\ StronglySorted Qlt (weights_for (length three_months))
  /\ exists p expense,
       predict_from three_months = Ok p
       /\ predicted_expense p = round2 expense
       /\ message p
          = _get_prediction_message (trend p) expense
              (Qsum (products (map Db.m_income three_months)
                       (weights_for (length three_months)))
               / Qsum (weights_for (length three_months)))
       /\ 100 <= expense <= 300.
Proof.
  apply (forecast_within_history three_months 100 300).
  - vm_compute. lia.
  - repeat constructor; vm_compute; discriminate.
Defined.

End ForecastBounds.

(** ** Alert engine: the thresholds in amounts *)

Section AlertThresholds.

Import Predictor.
Local Open Scope Q_scope.

Lemma positive_nonzero L : 0 < L -> ~ L == 0.
Proof. intros HL E. rewrite E in HL. now apply (Qlt_irrefl 0). Qed.

(** Comparing a percentage of the limit with [k] is comparing the amounts. *)
Lemma percentage_at_least k L s :
  0 < L -> (k <= s / L * 100 <-> k * L <= s * 100).
Proof.
  intros HL. pose proof (positive_nonzero L HL) as HL0.
  assert (Heq : s / L * 100 == s * 100 / L) by (field; exact HL0).
  rewrite Heq. split; intros H.
  - apply (Qmult_le_compat_r _ _ L) in H; [|now apply Qlt_le_weak].
    assert (Hback : s * 100 / L * L == s * 100) by (field; exact HL0).
    now rewrite Hback in H.
  - now apply Qle_shift_div_l.
Qed.

Lemma alerts_of_one_row item :
  budget_alerts [item]
  = if Qle_bool 100 (Db.bs_percentage item) then
      [mkAlert (Db.bs_name item) (Db.bs_icon item) "budget_exceeded" "high"
               (BudgetExceeded (Db.bs_spent item) (Db.bs_monthly_limit item))
               (Db.bs_percentage item)]
    else if Qle_bool 80 (Db.bs_percentage item) then
      [mkAlert (Db.bs_name item) (Db.bs_icon item) "budget_warning" "medium"
               (ApproachingLimit (Db.bs_percentage item)) (Db.bs_percentage item)]
    else [].
Proof. unfold budget_alerts. cbn [flat_map]. apply app_nil_r. Qed.

(** X7: what the first pass of [detect_overspending] makes of a budget
    row, in amounts: a limit that is not positive never alerts; with a
    positive limit, spending the limit or more gives "budget_exceeded"
    (high), spending from 80% of it up to the limit gives "budget_warning"
    (medium), and spending less than 80% gives nothing. *)
Theorem budget_alert_thresholds (c : Db.category) (limit spent : Q) :
  let row := Db.budget_status_row c limit spent in
  (limit <= 0 -> budget_alerts [row] = [])
  /\ (0 < limit -> limit <= spent ->
      exists a, budget_alerts [row] = [a]
                /\ a_category a = Db.c_name c
                /\ a_type a = "budget_exceeded" /\ a_severity a = "high")
  /\ (0 < limit -> (8 # 10) * limit <= spent -> spent < limit ->
      exists a, budget_alerts [row] = [a]
                /\ a_category a = Db.c_name c
                /\ a_type a = "budget_warning" /\ a_severity a = "medium")
  /\ (0 < limit -> spent < (8 # 10) * limit -> budget_alerts [row] = []).
Proof.
  intros row. destruct (budget_row_percentage c limit spent) as [Hpos Hnon].
  fold row in Hpos, Hnon.
  assert (Hge : forall k, 0 < limit -> k * limit <= spent * 100 ->
                  Qle_bool k (Db.bs_percentage row) = true).
  { intros k HL Hk. rewrite (Hpos HL). apply Qle_bool_iff.
    now apply percentage_at_least. }
  assert (Hlt : forall k, 0 < limit -> spent * 100 < k * limit ->
                  Qle_bool k (Db.bs_percentage row) = false).
  { intros k HL Hk. rewrite (Hpos HL).
    destruct (Qle_bool k (spent / limit * 100)) eqn:Hle; [|reflexivity].
    apply Qle_bool_iff, percentage_at_least in Hle; [|exact HL].
    exfalso. now apply (Qlt_not_le _ _ Hk). }
  assert (Hfull : limit <= spent -> 100 * limit <= spent * 100).
  { intros H. rewrite (Qmult_comm 100). now apply Qmult_le_compat_r. }
  assert (Hbelow : spent < limit -> spent * 100 < 100 * limit).
  { intros H. rewrite (Qmult_comm 100). now apply Qmult_lt_r. }
  assert (Hwarn : (8 # 10) * limit <= spent -> 80 * limit <= spent * 100).
  { intros H. assert (E : 80 * limit == (8 # 10) * limit * 100) by ring.
    rewrite E. now apply Qmult_le_compat_r. }
  assert (Hquiet : spent < (8 # 10) * limit -> spent * 100 < 80 * limit).
  { intros H. assert (E : 80 * limit == (8 # 10) * limit * 100) by ring.
    rewrite E. now apply Qmult_lt_r. }
  rewrite alerts_of_one_row. split; [|split; [|split]].
  - intros HL. rewrite (Hnon HL). reflexivity.
  - intros HL Hs. rewrite (Hge 100 HL (Hfull Hs)). eexists. repeat split.
  - intros HL Hs Hs'. rewrite (Hlt 100 HL (Hbelow Hs')), (Hge 80 HL (Hwarn Hs)).
    eexists. repeat split.
  - intros HL Hs.
    assert (Hs' : spent < limit).
    { apply (Qlt_le_trans _ _ _ Hs). rewrite <- (Qmult_1_l limit) at 2.
      apply Qmult_le_compat_r; [discriminate | now apply Qlt_le_weak]. }
    rewrite (Hlt 100 HL (Hbelow Hs')), (Hlt 80 HL (Hquiet Hs)). reflexivity.
Qed.

End AlertThresholds.

(** ** Storage: the listings are ordered and per user *)

Section Listings.

Import Db.

Section InsertionSort.
Context {A : Type} (leb : A -> A -> bool).
Hypothesis leb_total : forall a b, leb a b = false -> leb b a = true.

Let ordered (a b : A) : Prop := leb a b = true.

Lemma insert_sorted_HdRel y x l :
  HdRel ordered y l -> ordered y x -> HdRel ordered y (insert_sorted leb x l).
Proof.
  intros Hl Hx. destruct l as [|z l]; simpl; [now constructor|].
  destruct (leb z x); constructor; [now inversion Hl | exact Hx].
Qed.

Lemma insert_sorted_Sorted x l :
  Sorted ordered l -> Sorted ordered (insert_sorted leb x l).
Proof.
  induction l as [|y l IH]; intros Hl; simpl; [repeat constructor|].
  apply Sorted_inv in Hl as [Hl Hy].
  destruct (leb y x) eqn:Hyx.
  - constructor; [now apply IH | now apply insert_sorted_HdRel].
  - constructor; [now constructor|]. constructor. now apply leb_total.
Qed.

Lemma sort_by_Sorted l : Sorted ordered (sort_by leb l).
Proof.
  unfold sort_by.
  assert (Hgen : forall acc, Sorted ordered acc ->
             Sorted ordered (fold_left (fun acc x => insert_sorted leb x acc) l acc)).
  { induction l as [|x l IH]; intros acc Hacc; simpl; [exact Hacc|].
    apply IH. now apply insert_sorted_Sorted. }
  apply Hgen. constructor.
Qed.
End InsertionSort.



Lemma Sorted_weaken {A} (R R' : A -> A -> Prop) l :
  (forall a b, R a b -> R' a b) -> Sorted R l -> Sorted R' l.
Proof.
  intros Hsub. induction 1 as [|x l Hl IH Hx]; constructor; [exact IH|].
  destruct Hx; constructor. now apply Hsub.
Qed.





Lemma total_desc_total a b : total_desc a b = false -> total_desc b a = true.
Proof.
  unfold total_desc. intros H. apply Qle_bool_iff.
  apply Qlt_le_weak, Qnot_le_lt. intros Hle. apply Qle_bool_iff in Hle. congruence.
Qed.

(** X9: [get_category_breakdown] lists, largest total first, categories
    of the table that each have at least one matching transaction; the
    first row therefore has the largest total. *)
Theorem breakdown_listing (user_id : Z) (start_date end_date : option date)
    (transaction_type : ttype) (d : db) :
  let rows := get_category_breakdown user_id start_date end_date transaction_type d in
  StronglySorted not_below rows
  /\ Forall (fun row => (1 <= b_count row)%nat
                        /\ exists c, In c (categories d)
                                     /\ b_id row = c_id c /\ b_name row = c_name c)
            rows
  /\ (forall top others, rows = top :: others -> Forall (not_below top) others).
Proof.
  intros rows.
  assert (Hstrong : StronglySorted not_below rows).
  { apply Sorted_StronglySorted.
    - intros a b c Hab Hbc. unfold not_below in *. now apply (Qle_trans _ (b_total b)).
    - apply (Sorted_weaken (fun a b => total_desc a b = true)).
      + intros a b Hab. now apply Qle_bool_iff.
      + apply sort_by_Sorted. exact total_desc_total. }
  split; [exact Hstrong|]. split.
  - apply List.Forall_forall. intros row Hrow.
    unfold rows, get_category_breakdown in Hrow.
    apply sort_by_In, in_flat_map in Hrow as (c & Hc & Hrow).
    match type of Hrow with
    | In _ (match ?found with [] => _ | _ :: _ => _ end) => destruct found as [|t ts]
    end; [destruct Hrow|].
    destruct Hrow as [<- | []]. simpl. split; [lia|]. eauto.
  - intros top others Heq. rewrite Heq in Hstrong.
    now apply StronglySorted_inv in Hstrong as [_ Htop].
Qed.

End Listings.

(** ** Storage: writes and what they leave alone *)

Section Writes.

Import Db.
Local Open Scope Q_scope.

Lemma Qsum_snoc l x : Qsum (l ++ [x]) = Qsum l + x.
Proof. unfold Qsum. now rewrite fold_left_app. Qed.

Lemma filter_snoc {A} (f : A -> bool) l x :
  List.filter f (l ++ [x]) = List.filter f l ++ (if f x then [x] else []).
Proof. rewrite List.filter_app. reflexivity. Qed.

Lemma total_of_snoc ty rows t :
  total_of ty (rows ++ [t])
  = if ttype_eqb (t_type t) ty then total_of ty rows + t_amount t else total_of ty rows.
Proof.
  unfold total_of. rewrite filter_snoc.
  destruct (ttype_eqb (t_type t) ty).
  - rewrite map_app. apply Qsum_snoc.
  - now rewrite app_nil_r.
Qed.

(** X10: what [add_transaction] does to [get_summary]: for the user and a
    period that holds the date, the total of the transaction's type grows
    by the amount, the other total stays, and the balance is income minus
    expense; a period that does not hold the date, and every other user,
    see no change. *)
Theorem summary_after_add (amount : Q) (description : string) (category_id : Z)
    (ty : ttype) (on : date) (user_id : Z) (start_date end_date : option date) (d : db) :
  let d' := (add_transaction amount description category_id ty on user_id d).2 in
  let before := get_summary user_id start_date end_date d in
  let after := get_summary user_id start_date end_date d' in
  (covers start_date end_date on = true ->
   s_income after
   = match ty with Income => s_income before + amount | Expense => s_income before end
   /\ s_expense after
      = match ty with Expense => s_expense before + amount | Income => s_expense before end
   /\ s_balance after = s_income after - s_expense after)
  /\ (covers start_date end_date on = false -> after = before)
  /\ (forall other, other <> user_id ->
        get_summary other start_date end_date d' = get_summary other start_date end_date d).
Proof.
  intros d' before after.
  set (t := mkTransaction (next_transaction_id d) amount description category_id ty on
                          user_id).
  assert (Hrows : forall u,
            List.filter (fun t => (t_user t =? u)%Z && in_period start_date end_date t)
                        (transactions d')
            = List.filter (fun t => (t_user t =? u)%Z && in_period start_date end_date t)
                          (transactions d)
              ++ (if (user_id =? u)%Z && covers start_date end_date on then [t] else [])).
  { intros u. unfold d', add_transaction. cbn [snd transactions].
    rewrite filter_snoc. reflexivity. }
  split; [|split].
  - intros Hin. unfold after, before, get_summary. rewrite Hrows.
    rewrite Z.eqb_refl, Hin. cbn [andb].
    rewrite !total_of_snoc. unfold t. cbn [t_type t_amount s_income s_expense s_balance].
    destruct ty; cbn [ttype_eqb]; repeat split.
  - intros Hout. unfold after, before, get_summary. rewrite Hrows.
    rewrite Hout, andb_false_r, app_nil_r. reflexivity.
  - intros other Hother. unfold get_summary. rewrite Hrows.
    destruct (Z.eqb_spec user_id other) as [->|_]; [contradiction|].
    cbn [andb]. rewrite app_nil_r. reflexivity.
Qed.

Lemma designates_iff transaction_id user_id t :
  designates transaction_id user_id t = true
  <-> t_id t = transaction_id /\ t_user t = user_id.
Proof. unfold designates. rewrite andb_true_iff, !Z.eqb_eq. reflexivity. Qed.

(** X11: [delete_transaction] removes exactly the rows with that id that
    belong to that user, answers whether there was one, leaves every other
    table alone, and afterwards the user finds no row under the id. *)
Theorem delete_is_per_user (transaction_id user_id : Z) (d : db) :
  let found := (delete_transaction transaction_id user_id d).1 in
  let d' := (delete_transaction transaction_id user_id d).2 in
  (forall t, In t (transactions d')
             <-> In t (transactions d)
                 /\ ~ (t_id t = transaction_id /\ t_user t = user_id))
  /\ (found = true
      <-> exists t, In t (transactions d)
                    /\ t_id t = transaction_id /\ t_user t = user_id)
  /\ get_transaction_by_id transaction_id user_id d' = None
  /\ categories d' = categories d
  /\ budgets d' = budgets d
  /\ settings d' = settings d.
Proof.
  intros found d'.
  assert (Hin : forall t, In t (transactions d')
                          <-> In t (transactions d)
                              /\ ~ (t_id t = transaction_id /\ t_user t = user_id)).
  { intros t. unfold d', delete_transaction. cbn [snd transactions].
    rewrite filter_In, negb_true_iff, <- designates_iff.
    destruct (designates transaction_id user_id t); intuition congruence. }
  split; [exact Hin|]. split; [|split; [|repeat split]].
  - unfold found, delete_transaction. cbn [fst]. rewrite existsb_exists.
    split; intros (t & Ht & Hd); exists t; split; try assumption;
      now apply designates_iff.
  - unfold get_transaction_by_id.
    destruct (find (designates transaction_id user_id) (transactions d')) as [t|] eqn:Hf;
      [|reflexivity].
    apply find_some in Hf as [Ht Hd]. apply Hin in Ht as [_ Hnot].
    exfalso. apply Hnot. now apply designates_iff.
Qed.

(** X12: [update_transaction] without a field to set answers False and
    changes nothing; with an id that is not a row of the user it answers
    False and every row stays as it was; in all cases the ids, the owners
    and the types of the rows, and the rows of other users, are kept. *)
Theorem update_is_per_user (transaction_id user_id : Z) (ch : changes) (d : db) :
  let found := (update_transaction transaction_id user_id ch d).1 in
  let d' := (update_transaction transaction_id user_id ch d).2 in
  (no_change ch = true -> found = false /\ d' = d)
  /\ ((forall t, In t (transactions d) -> ~ (t_id t = transaction_id /\ t_user t = user_id))
      -> found = false /\ transactions d' = transactions d)
  /\ map (fun t => (t_id t, t_user t, t_type t)) (transactions d')
     = map (fun t => (t_id t, t_user t, t_type t)) (transactions d)
  /\ (forall t, In t (transactions d) -> t_user t <> user_id -> In t (transactions d')).
Proof.
  intros found d'. unfold found, d', update_transaction.
  destruct (no_change ch) eqn:Hno.
  - cbn [fst snd]. split; [intros _; split; reflexivity|].
    split; [intros _; split; reflexivity|]. split; [reflexivity|].
    intros t Ht _. exact Ht.
  - cbn [fst snd transactions]. split; [discriminate|]. split; [|split].
    + intros Hmiss.
      assert (Hnone : forall t, In t (transactions d) ->
                        designates transaction_id user_id t = false).
      { intros t Ht. destruct (designates transaction_id user_id t) eqn:Hd;
          [|reflexivity].
        apply designates_iff in Hd. now apply Hmiss in Ht. }
      split.
      * destruct (existsb _ (transactions d)) eqn:Hex; [|reflexivity].
        apply existsb_exists in Hex as (t & Ht & Hd). rewrite (Hnone t Ht) in Hd.
        discriminate.
      * rewrite <- (map_id (transactions d)) at 2. apply map_ext_in.
        intros t Ht. now rewrite (Hnone t Ht).
    + rewrite map_map. apply map_ext. intros t.
      destruct (designates transaction_id user_id t); reflexivity.
    + intros t Ht Hother. apply in_map_iff. exists t. split; [|exact Ht].
      destruct (designates transaction_id user_id t) eqn:Hd; [|reflexivity].
      apply designates_iff in Hd. tauto.
Qed.

(** X13: [clear_all_data] deletes the transactions and the budgets of the
    user and nothing else: afterwards the user's summary is zero and its
    listings are empty, while the rows and budgets of other users, the
    categories and the settings are as before. *)
Theorem clear_is_per_user (user_id : Z) (d : db) :
  let d' := clear_all_data user_id d in
  (forall t, In t (transactions d')
             <-> In t (transactions d) /\ t_user t <> user_id)
  /\ (forall category_id, budgets d' !! (category_id, user_id) = None)
  /\ (forall category_id other, other <> user_id ->
        budgets d' !! (category_id, other) = budgets d !! (category_id, other))
  /\ categories d' = categories d
  /\ settings d' = settings d
  /\ (forall start_date end_date,
        s_income (get_summary user_id start_date end_date d') = 0
        /\ s_expense (get_summary user_id start_date end_date d') = 0)
  /\ (forall limit, get_transactions user_id limit d' = [])
  /\ (forall month, get_budget_status user_id month d' = []).
Proof.
  intros d'.
  assert (Hin : forall t, In t (transactions d')
                          <-> In t (transactions d) /\ t_user t <> user_id).
  { intros t. unfold d', clear_all_data. cbn [transactions].
    rewrite filter_In, negb_true_iff, Z.eqb_neq. reflexivity. }
  assert (Hmine : forall f,
            List.filter (fun t => (t_user t =? user_id)%Z && f t) (transactions d') = []).
  { intros f. destruct (List.filter _ (transactions d')) as [|t l] eqn:Hf; [reflexivity|].
    assert (In t (List.filter (fun t => (t_user t =? user_id)%Z && f t)
                              (transactions d'))) as Ht by (rewrite Hf; now left).
    apply filter_In in Ht as [Ht Hu]. apply Hin in Ht as [_ Hne].
    apply andb_true_iff in Hu as [Hu _]. apply Z.eqb_eq in Hu. contradiction. }
  assert (Hnone : forall category_id, budgets d' !! (category_id, user_id) = None).
  { intros category_id. unfold d', clear_all_data. cbn [budgets].
    apply map_lookup_filter_None. right. intros limit _ Hkeep. now apply Hkeep. }
  split; [exact Hin|]. split; [exact Hnone|]. split; [|split; [|split; [|split; [|split]]]].
  - intros category_id other Hother. unfold d', clear_all_data. cbn [budgets].
    apply option_eq. intros limit. rewrite map_lookup_filter_Some. simpl. tauto.
  - reflexivity.
  - reflexivity.
  - intros start_date end_date. unfold get_summary. rewrite Hmine. split; reflexivity.
  - intros limit. unfold get_transactions.
    assert (Hnil : List.filter (fun t => (t_user t =? user_id)%Z) (transactions d') = []).
    { specialize (Hmine (fun _ => true)).
      erewrite List.filter_ext; [exact Hmine|]. intros t. symmetry. apply andb_true_r. }
    rewrite Hnil. now destruct limit as [[|n]|].
  - intros month. unfold get_budget_status.
    induction (categories d') as [|c cs IH]; [reflexivity|]. cbn [flat_map].
    rewrite Hnone, IH. now destruct (visible_to user_id c && ttype_eqb (c_type c) Expense).
Qed.

(** X14: a setting stored for a user is read back for that user and key,
    every other key and user reads what it read before, and no other table
    changes. *)
Theorem setting_round_trip (key value : string) (user_id : Z) (d : db) :
  let d' := set_setting key value user_id d in
  get_setting key user_id d' = Some value
  /\ (forall key' user', (key', user') <> (key, user_id) ->
        get_setting key' user' d' = get_setting key' user' d)
  /\ categories d' = categories d
  /\ transactions d' = transactions d
  /\ budgets d' = budgets d.
Proof.
  intros d'. unfold d', get_setting, set_setting. cbn [settings].
  split; [apply lookup_insert_eq|]. split; [|repeat split].
  intros key' user' Hne. apply lookup_insert_ne. congruence.
Qed.

End Writes.

(** ** Chat assistant: what a message can do *)

Section Dispatch.

Import Assistant.

(** The outcome of the deterministic path is a response that leaves the
    database as it is, or the outcome of one of the three writing handlers;
    an income reaches its handler with a description. *)
Lemma regex_path_cases (P : handled -> Prop) e message user_id d :
  (forall r, P (Ok (r, d))) ->
  (forall data, P (_handle_add_expense e data user_id d)) ->
  (forall amount text, P (_handle_add_income e (mkEntry amount (Some text)) user_id d)) ->
  (forall data, P (_handle_set_budget data user_id d)) ->
  P (_process_with_regex e message user_id d).
Proof.
  intros Hplain Hexpense Hincome Hbudget. unfold _process_with_regex.
  destruct (_match_intent message greeting); [apply Hplain|].
  destruct (_match_intent message help); [apply Hplain|].
  destruct (_match_intent message thanks); [apply Hplain|].
  destruct (_extract_expense message) as [expense_data|]; [apply Hexpense|].
  unfold _extract_income.
  destruct (extract_with (intent_patterns add_income) message) as [[a description]|];
    cbn [fmap option_fmap option_map]; [apply Hincome|].
  destruct (_match_intent message check_balance); [apply Hplain|].
  destruct (_match_intent message check_spending).
  { unfold _handle_check_spending.
    destruct (Db.get_category_breakdown _ _ _ _ _); apply Hplain. }
  destruct (_match_intent message recent_transactions).
  { unfold _handle_recent_transactions.
    destruct (Db.get_transactions _ _ _); apply Hplain. }
  destruct (_extract_budget message) as [budget_data|]; [apply Hbudget|].
  unfold _smart_parse.
  destruct (Regex.search false (Regex.seq (amount 1)) message) as [m|]; [|apply Hplain].
  destruct (Regex.group 1 (Regex.f_groups m) ≫= Float.of_string) as [a|];
    [|apply Hplain].
  destruct (Qltb 0 a); [|apply Hplain].
  destruct (existsb _ income_keywords); [apply Hincome | apply Hexpense].
Qed.


Lemma set_budget_handler_returns data user_id d :
  exists r d', _handle_set_budget data user_id d = Ok (r, d')
               /\ (d' = d \/ exists category_id,
                              d' = Db.set_budget category_id user_id (be_amount data) d).
Proof.
  unfold _handle_set_budget. destruct (be_category data) as [text|]; [|eauto].
  destruct (String.eqb text EmptyString); [eauto|].
  destruct (find _ _) as [c|]; eauto 8.
Qed.

Lemma expense_handler_writes e data user_id d r d' :
  _handle_add_expense e data user_id d = Ok (r, d') ->
  exists description category_id,
    d' = (Db.add_transaction (e_amount data) description category_id Db.Expense
            (today e) user_id d).2.
Proof.
  unfold _handle_add_expense.
  destruct (Categorizer.predict (model e) (e_description data)) as [name conf].
  destruct (Db.get_category_by_name name user_id d) as [c|].
  - intros [= <- <-]. eauto.
  - destruct (Db.get_categories (Some Db.Expense) user_id d) as [|first rest];
      [discriminate|].
    intros [= <- <-]. eauto.
Qed.

Lemma income_handler_writes e data user_id d r d' :
  _handle_add_income e data user_id d = Ok (r, d') ->
  d' = d
  \/ exists description category_id,
       d' = (Db.add_transaction (e_amount data) description category_id Db.Income
               (today e) user_id d).2.
Proof.
  unfold _handle_add_income.
  destruct (Categorizer.predict (model e) (e_description data)) as [name conf].
  match goal with
  | |- context [match ?found with Ok _ => _ | Raise _ => _ end] =>
      destruct found as [[c|]|x]
  end.
  - intros [= <- <-]. right. eauto.
  - intros [= <- <-]. now left.
  - discriminate.
Qed.

(** The deterministic path never writes more than once. *)
Lemma regex_path_writes e message user_id d r d' :
  _process_with_regex e message user_id d = Ok (r, d') ->
  one_write user_id (today e) d d'.
Proof.
  apply (regex_path_cases
           (fun h => h = Ok (r, d') -> one_write user_id (today e) d d')).
  - intros r0 [= <- <-]. now left.
  - intros data H. apply expense_handler_writes in H as (desc & cid & ->).
    right. left. eauto.
  - intros a text H. apply income_handler_writes in H as [-> | (desc & cid & ->)].
    + now left.
    + right. left. eauto.
  - intros data H.
    destruct (set_budget_handler_returns data user_id d) as (r0 & d0 & Heq & Hd0).
    rewrite Heq in H. injection H as <- <-.
    destruct Hd0 as [-> | (cid & ->)]; [now left|]. right. right. eauto.
Qed.

Lemma gemini_path_writes e message user_id d r d' :
  _process_with_gemini e message user_id d = Ok (r, d') ->
  one_write user_id (today e) d d'.
Proof.
  unfold _process_with_gemini.
  destruct (generate_content e _) as [|text fragment]; [apply regex_path_writes|].
  destruct (gemini_action e fragment user_id d) as [[r0 d0]|] eqn:Hact.
  - intros [= <- <-]. unfold gemini_action in Hact.
    destruct fragment as [| |js_data]; try discriminate.
    destruct (js_action js_data) as [act|]; [|discriminate].
    destruct (js_amount js_data) as [a|], (js_description js_data) as [description|];
      try (destruct (String.eqb act "add_expense");
           [discriminate | destruct (String.eqb act "add_income"); discriminate]).
    destruct (String.eqb act "add_expense").
    + destruct (_handle_add_expense e (mkEntry a description) user_id d)
        as [[r1 d1]|x] eqn:Hh; [|discriminate].
      injection Hact as <- <-.
      apply expense_handler_writes in Hh as (desc & cid & ->). right. left. eauto.
    + destruct (String.eqb act "add_income"); [|discriminate].
      destruct (_handle_add_income e (mkEntry a description) user_id d)
        as [[r1 d1]|x] eqn:Hh; [|discriminate].
      injection Hact as <- <-.
      apply income_handler_writes in Hh as [-> | (desc & cid & ->)]; [now left|].
      right. left. eauto.
  - intros [= <- <-]. now left.
Qed.

(** X15: whatever the message, the remote reply and the draw, a call of
    [process_message] that returns has written at most once: the database
    is unchanged, or one transaction of the acting user dated today was
    added, or one budget of the acting user was set; categories and
    settings are never touched. *)
Theorem message_writes_at_most_once (e : env) (self : assistant) (message : string)
    (user_id : Z) (d : Db.db) (r : result) (d' : Db.db) :
  (process_message e self message user_id d).2 = Ok (r, d') ->
  one_write user_id (today e) d d'
  /\ Db.categories d' = Db.categories d
  /\ Db.settings d' = Db.settings d
  /\ (length (Db.transactions d') <= S (length (Db.transactions d)))%nat.
Proof.
  intros Hrun.
  assert (Hone : one_write user_id (today e) d d').
  { unfold process_message in Hrun. cbn [snd] in Hrun.
    destruct (ensure_model e self _);
      [now apply gemini_path_writes in Hrun | now apply regex_path_writes in Hrun]. }
  split; [exact Hone|].
  destruct Hone as [-> | [(a & desc & cid & ty & ->) | (cid & limit & ->)]];
    repeat split; try reflexivity;
    unfold Db.add_transaction, Db.set_budget; cbn [snd Db.transactions];
    rewrite ?length_app; simpl; lia.
Qed.

Lemma message_writes_at_most_once_witness :
  one_write 1 (mkDate 2026 11 4) registered
    (Db.add_transaction 500 "Groceries" 1 Db.Expense (mkDate 2026 11 4) 1 registered).2
  /\ Db.categories
       (Db.add_transaction 500 "Groceries" 1 Db.Expense (mkDate 2026 11 4) 1 registered).2
     = Db.categories registered
  /\ Db.settings
       (Db.add_transaction 500 "Groceries" 1 Db.Expense (mkDate 2026 11 4) 1 registered).2
     = Db.settings registered
  /\ (length (Db.transactions
        (Db.add_transaction 500 "Groceries" 1 Db.Expense (mkDate 2026 11 4) 1
           registered).2)
      <= S (length (Db.transactions registered)))%nat.
Proof.
  apply (message_writes_at_most_once (offline (mkDate 2026 11 4) 0) fresh
           "Spent 500 on groceries" 1 registered
           (mkResult
              (ExpenseAdded 500 "Groceries" "🍔" "Food & Dining" (mkDate 2026 11 4))
              "expense_added" (Added 1 500 "Food & Dining" (Some "groceries")))).
  vm_compute. reflexivity.
Defined.






(** X18: storing a non-empty credential with [set_setting] sends the next
    message down the remote path as soon as the model is there or can be
    configured, and the assistant then holds the model; when configuring
    fails and there was no model, the message takes the deterministic
    path. *)
Theorem stored_key_selects_path (e : env) (self : assistant) (key message : string)
    (user_id : Z) (d : Db.db) :
  key <> EmptyString ->
  let d' := Db.set_setting "gemini_api_key" key user_id d in
  let cleaned := Text.lower (Text.strip message) in
  (has_model self = true \/ configure_ok e = true ->
   process_message e self message user_id d'
   = (mkAssistant (Some key) true, _process_with_gemini e cleaned user_id d'))
  /\ (has_model self = false -> configure_ok e = false ->
      process_message e self message user_id d'
      = (mkAssistant (Some key) false, _process_with_regex e cleaned user_id d')).
Proof.
  intros Hkey d' cleaned.
  assert (Hget : Db.get_setting "gemini_api_key" user_id d' = Some key).
  { unfold d', Db.get_setting, Db.set_setting. cbn [Db.settings].
    apply lookup_insert_eq. }
  assert (Htruthy : truthy (Some key) = true).
  { unfold truthy. apply negb_true_iff. now apply String.eqb_neq. }
  unfold process_message, ensure_model. rewrite Hget, Htruthy. fold cleaned. split.
  - intros [Hm | Hc].
    + rewrite Hm. reflexivity.
    + destruct (has_model self); cbn [andb negb]; [reflexivity | now rewrite Hc].
  - intros Hm Hc. rewrite Hm. cbn [andb negb]. now rewrite Hc.
Qed.

Lemma stored_key_selects_path_witness :
  let e := garbled (mkDate 2026 11 4) in
  let d' := Db.set_setting "gemini_api_key" "secret" 1 registered in
  let cleaned := Text.lower (Text.strip "Hi") in
  (has_model fresh = true \/ configure_ok e = true ->
   process_message e fresh "Hi" 1 d'
   = (mkAssistant (Some "secret") true, _process_with_gemini e cleaned 1 d'))
  /\ (has_model fresh = false -> configure_ok e = false ->
      process_message e fresh "Hi" 1 d'
      = (mkAssistant (Some "secret") false, _process_with_regex e cleaned 1 d')).
Proof.
  apply (stored_key_selects_path (garbled (mkDate 2026 11 4)) fresh "secret" "Hi" 1
           registered).
  discriminate.
Defined.

End Dispatch.

(** ** Storage: what every reachable database satisfies *)

Section Reachable.

Import Db.

Lemma well_formed_init : well_formed init.
Proof.
  repeat split.
  - constructor.
  - constructor.
  - vm_compute. repeat constructor.
  - vm_compute. repeat (constructor; [simpl; intuition discriminate|]). constructor.
  - exists food. split; [vm_compute; left; reflexivity | split; reflexivity].
  - exists (mkCategory 10 "Salary" Income "💵" "#2ECC71" None).
    split; [vm_compute; do 9 right; left; reflexivity | split; reflexivity].
Qed.

Lemma NoDup_snoc {A} (l : list A) x :
  List.NoDup l -> ~ In x l -> List.NoDup (l ++ [x]).
Proof.
  induction l as [|y l IH]; intros Hnd Hx; simpl.
  - constructor; [intros [] | constructor].
  - apply List.NoDup_cons_iff in Hnd as [Hy Hnd]. constructor.
    + rewrite in_app_iff. intros [Hin | [-> | []]]; [contradiction|].
      apply Hx. now left.
    + apply IH; [exact Hnd|]. intros Hin. apply Hx. now right.
Qed.

Lemma well_formed_insert_category name ty icon color user d :
  well_formed d -> well_formed (insert_category d name ty icon color user).
Proof.
  intros (Ht & Htn & Hc & Hcn & (ce & Hce & Hce') & (ci & Hci & Hci')).
  unfold well_formed, insert_category. cbn [transactions next_transaction_id categories
    next_category_id]. repeat split; try assumption.
  - apply Forall_app. split.
    + eapply List.Forall_impl; [|exact Hc]. intros c Hlt. cbn beta in *. lia.
    + repeat constructor. cbn [c_id]. lia.
  - rewrite map_app. cbn [map c_id]. apply NoDup_snoc; [exact Hcn|].
    intros Hx. apply in_map_iff in Hx as (c & Heq & Hin).
    rewrite List.Forall_forall in Hc. specialize (Hc c Hin). lia.
  - exists ce. split; [apply in_or_app; now left | exact Hce'].
  - exists ci. split; [apply in_or_app; now left | exact Hci'].
Qed.

Lemma well_formed_seed user d : well_formed d -> well_formed (_seed_categories user d).
Proof.
  intros Hwf. unfold _seed_categories.
  destruct (existsb _ (categories d)); [exact Hwf|].
  generalize default_categories. intros defaults. revert d Hwf.
  induction defaults as [|[[[name ty] icon] color] defaults IH]; intros d Hwf;
    [exact Hwf|].
  cbn [fold_left]. apply IH. now apply well_formed_insert_category.
Qed.

Lemma NoDup_map_filter {A B} (f : A -> B) (p : A -> bool) l :
  List.NoDup (map f l) -> List.NoDup (map f (List.filter p l)).
Proof.
  induction l as [|x l IH]; intros Hnd; [constructor|].
  simpl in Hnd. apply List.NoDup_cons_iff in Hnd as [Hx Hnd].
  simpl. destruct (p x); [|now apply IH].
  simpl. constructor; [|now apply IH].
  intros Hin. apply Hx. apply in_map_iff in Hin as (y & Hy & Hin).
  apply in_map_iff. exists y. split; [exact Hy|]. now apply filter_In in Hin as [Hin _].
Qed.

Lemma Forall_filter_keep {A} (P : A -> Prop) (p : A -> bool) l :
  Forall P l -> Forall P (List.filter p l).
Proof.
  intros Hl. apply List.Forall_forall. intros x Hx.
  apply filter_In in Hx as [Hx _]. rewrite List.Forall_forall in Hl. now apply Hl.
Qed.

Lemma reachable_well_formed d : reachable d -> well_formed d.
Proof.
  induction 1 as [ | u d _ IH | name ty u icon color d _ IH
                 | a desc cid ty on u d _ IH | tid u ch d _ IH | tid u d _ IH
                 | u d _ IH | cid u limit d _ IH | key value u d _ IH ].
  - exact well_formed_init.
  - now apply well_formed_seed.
  - unfold add_category. cbn [snd]. now apply well_formed_insert_category.
  - destruct IH as (Ht & Htn & Hrest).
    unfold well_formed, add_transaction.
    cbn [snd transactions next_transaction_id categories next_category_id].
    split; [|split; [|exact Hrest]].
    + apply Forall_app. split.
      * eapply List.Forall_impl; [|exact Ht]. intros t Hlt. cbn beta in *. lia.
      * repeat constructor. cbn [t_id]. lia.
    + rewrite map_app. cbn [map t_id]. apply NoDup_snoc; [exact Htn|].
      intros Hx. apply in_map_iff in Hx as (t & Heq & Hin).
      rewrite List.Forall_forall in Ht. specialize (Ht t Hin). lia.
  - destruct IH as (Ht & Htn & Hrest).
    unfold update_transaction. destruct (no_change ch); [now repeat split|].
    unfold well_formed.
    cbn [snd transactions next_transaction_id categories next_category_id].
    split; [|split; [|exact Hrest]].
    + apply Forall_map. eapply List.Forall_impl; [|exact Ht].
      intros t Hlt. cbn beta. now destruct (designates tid u t).
    + rewrite map_map.
      erewrite map_ext; [exact Htn|]. intros t. now destruct (designates tid u t).
  - destruct IH as (Ht & Htn & Hrest).
    unfold well_formed, delete_transaction.
    cbn [snd transactions next_transaction_id categories next_category_id].
    split; [now apply Forall_filter_keep|].
    split; [now apply NoDup_map_filter | exact Hrest].
  - destruct IH as (Ht & Htn & Hrest).
    unfold well_formed, clear_all_data.
    cbn [transactions next_transaction_id categories next_category_id].
    split; [now apply Forall_filter_keep|].
    split; [now apply NoDup_map_filter | exact Hrest].
  - exact IH.
  - exact IH.
Qed.

Lemma shared_category_listed ty user_id d :
  (exists c, In c (categories d) /\ c_user c = None /\ c_type c = ty) ->
  get_categories (Some ty) user_id d <> [].
Proof.
  intros (c & Hin & Hshared & Hty) Hnil.
  assert (In c (get_categories (Some ty) user_id d)) as Hc.
  { apply get_categories_In. repeat split; try assumption.
    unfold visible_to. now rewrite Hshared. }
  rewrite Hnil in Hc. destruct Hc.
Qed.

(** X19: in every database reachable from a fresh one through the storage
    operations (seeding a user, adding a category, adding, updating and
    deleting transactions, clearing a user's data, setting a budget or a
    setting), transaction ids are pairwise distinct, category ids are
    pairwise distinct, an added transaction gets an id that no row has, and
    every user has an expense category and an income category at hand. *)
Theorem reachable_invariants (d : db) :
  reachable d ->
  List.NoDup (map t_id (transactions d))
  /\ List.NoDup (map c_id (categories d))
  /\ (forall amount description category_id ty on user_id,
        ~ In (add_transaction amount description category_id ty on user_id d).1
             (map t_id (transactions d)))
  /\ (forall user_id, has_categories user_id d).
Proof.
  intros Hreach.
  destruct (reachable_well_formed d Hreach) as (Ht & Htn & _ & Hcn & Hexp & Hinc).
  split; [exact Htn|]. split; [exact Hcn|]. split.
  - intros a desc cid ty on u Hin. cbn [add_transaction fst] in Hin.
    apply in_map_iff in Hin as (t & Heq & Hin).
    rewrite List.Forall_forall in Ht. specialize (Ht t Hin). lia.
  - intros user_id. split; now apply shared_category_listed.
Qed.

Lemma reachable_invariants_witness :
  List.NoDup (map t_id (transactions three_expenses))
  /\ List.NoDup (map c_id (categories three_expenses))
  /\ (forall amount description category_id ty on user_id,
        ~ In (add_transaction amount description category_id ty on user_id
                three_expenses).1
             (map t_id (transactions three_expenses)))
  /\ (forall user_id, has_categories user_id three_expenses).
Proof.
  apply (reachable_invariants three_expenses).
  repeat apply reach_add_transaction. apply reach_seed. apply reach_init.
Defined.

End Reachable.

(** ** Chat assistant: a message without a digit *)

Section NoDigit.

Import Regex Assistant.

Lemma digit_free_tail c s : digit_free (String c s) -> digit_free s.
Proof. unfold digit_free, chars. simpl. intros H. now apply Forall_cons_iff in H. Qed.

Lemma literal_digit_free icase l s s' :
  literal icase l s = Some s' -> digit_free s -> digit_free s'.
Proof.
  revert s. induction l as [|a l IH]; intros [|b s]; simpl; try discriminate.
  - now intros [= <-].
  - now intros [= <-].
  - destruct (if icase then _ else _); [|discriminate].
    intros Hl Hs. apply (IH _ Hl). now apply digit_free_tail in Hs.
Qed.

Section Failing.
Context {R : Type}.

(** The matcher only hands its continuation what is left of the text: a
    continuation that fails on every text without a digit makes the match
    fail on such a text. *)
Lemma star_fails p pos s caps (k : @cont R) :
  digit_free s ->
  (forall pos' s' caps', digit_free s' -> k pos' s' caps' = None) ->
  star p pos s caps k = None.
Proof.
  intros Hs Hk. revert pos. induction s as [|c s IH]; intros pos; simpl.
  - now apply Hk.
  - destruct (p c); [|now apply Hk].
    rewrite IH by (now apply digit_free_tail in Hs). now apply Hk.
Qed.

Lemma run_fails icase r pos s caps (k : @cont R) :
  digit_free s ->
  (forall pos' s' caps', digit_free s' -> k pos' s' caps' = None) ->
  run icase r pos s caps k = None.
Proof.
  revert pos s caps k.
  induction r as [l | p | r1 IH1 r2 IH2 | r1 IH1 r2 IH2 | r IH | p | n r IH | | ];
    intros pos s caps k Hs Hk; simpl.
  - destruct (literal icase l s) as [s'|] eqn:Hl; [|reflexivity].
    apply Hk. now apply (literal_digit_free _ _ _ _ Hl).
  - destruct s as [|c s]; [reflexivity|].
    destruct (p c); [|reflexivity]. apply Hk. now apply digit_free_tail in Hs.
  - apply IH1; [exact Hs|]. intros pos' s' caps' Hs'. now apply IH2.
  - rewrite IH1 by assumption. now apply IH2.
  - rewrite IH by assumption. now apply Hk.
  - now apply star_fails.
  - apply IH; [exact Hs|]. intros pos' s' caps' Hs'. now apply Hk.
  - destruct (pos =? 0)%nat; [now apply Hk | reflexivity].
  - destruct (_ || _); [now apply Hk | reflexivity].
Qed.

Lemma needs_digit_fails icase r pos s caps (k : @cont R) :
  needs_digit r -> digit_free s -> run icase r pos s caps k = None.
Proof.
  intros Hr. revert pos s caps k.
  induction Hr as [p Hp | r1 r2 _ IH | r1 r2 _ IH | r1 r2 _ IH1 _ IH2 | n r _ IH];
    intros pos s caps k Hs; simpl.
  - destruct s as [|c s]; [reflexivity|].
    destruct (p c) eqn:Hpc; [|reflexivity].
    apply Hp in Hpc. unfold digit_free, chars in Hs. simpl in Hs.
    apply Forall_cons_iff in Hs as [Hc _]. congruence.
  - now apply IH.
  - apply run_fails; [exact Hs|]. intros pos' s' caps' Hs'. now apply IH.
  - rewrite IH1 by assumption. now apply IH2.
  - now apply IH.
Qed.
End Failing.

Lemma search_fails icase r s :
  needs_digit r -> digit_free s -> search icase r s = None.
Proof.
  intros Hr. unfold search. generalize 0%nat as pos.
  induction s as [|c s IH]; intros pos Hs; simpl.
  - now rewrite needs_digit_fails.
  - rewrite needs_digit_fails by assumption. apply IH. now apply digit_free_tail in Hs.
Qed.

Ltac needs_a_digit :=
  lazymatch goal with
  | |- needs_digit (Class Text.is_digit) =>
      apply needs_digit_class; intros c Hc; exact Hc
  | |- needs_digit (Group _ _) => apply needs_digit_group; needs_a_digit
  | |- needs_digit (Alt _ _) => apply needs_digit_both; needs_a_digit
  | |- needs_digit (Seq _ _) =>
      first [ solve [apply needs_digit_first; needs_a_digit]
            | apply needs_digit_second; needs_a_digit ]
  end.

Ltac open_patterns :=
  cbv [intent_patterns seq alt words opt_word amount add_record_log number rest Plus
       currency ws ws1 app map].

(** Every pattern that yields an amount has a mandatory number. *)
Lemma writing_patterns_need_digit :
  Forall needs_digit (intent_patterns add_expense)
  /\ Forall needs_digit (intent_patterns add_income)
  /\ Forall needs_digit (intent_patterns set_budget)
  /\ needs_digit (seq (amount 1)).
Proof.
  open_patterns. split; [|split; [|split]].
  - repeat (apply List.Forall_cons; [needs_a_digit|]). apply List.Forall_nil.
  - repeat (apply List.Forall_cons; [needs_a_digit|]). apply List.Forall_nil.
  - repeat (apply List.Forall_cons; [needs_a_digit|]). apply List.Forall_nil.
  - needs_a_digit.
Qed.

Lemma extract_with_fails patterns message :
  Forall needs_digit patterns -> digit_free message ->
  extract_with patterns message = None.
Proof.
  intros Hp Hm. induction Hp as [|r patterns Hr _ IH]; [reflexivity|].
  simpl. now rewrite search_fails.
Qed.

Lemma extract_budget_with_fails patterns message :
  Forall needs_digit patterns -> digit_free message ->
  extract_budget_with patterns message = None.
Proof.
  intros Hp Hm. induction Hp as [|r patterns Hr _ IH]; [reflexivity|].
  simpl. now rewrite search_fails.
Qed.

(** X20: a message without a digit never records anything on the
    deterministic path: it is answered by a greeting, the help, the
    thanks, a balance, spending or recent-transactions report or the
    fallback, the database is returned unchanged and nothing is raised,
    whatever categories the user has. *)
Theorem no_digit_no_write (e : env) (message : string) (user_id : Z) (d : Db.db) :
  digit_free message ->
  exists r,
    _process_with_regex e message user_id d = Ok (r, d)
    /\ In (action r) reading_actions.
Proof.
  intros Hm.
  destruct writing_patterns_need_digit as (Hexp & Hinc & Hbud & Hsmart).
  unfold _process_with_regex, _extract_expense, _extract_income, _extract_budget,
    _smart_parse.
  rewrite (extract_with_fails _ _ Hexp Hm), (extract_with_fails _ _ Hinc Hm),
    (extract_budget_with_fails _ _ Hbud Hm), (search_fails _ _ _ Hsmart Hm).
  cbn [fmap option_fmap option_map].
  destruct (_match_intent message greeting);
    [eexists; split; [reflexivity | cbn; tauto]|].
  destruct (_match_intent message help);
    [eexists; split; [reflexivity | cbn; tauto]|].
  destruct (_match_intent message thanks);
    [eexists; split; [reflexivity | cbn; tauto]|].
  destruct (_match_intent message check_balance);
    [eexists; split; [reflexivity | cbn; tauto]|].
  destruct (_match_intent message check_spending).
  { unfold _handle_check_spending.
    destruct (Db.get_category_breakdown _ _ _ _ _);
      eexists; (split; [reflexivity | cbn; tauto]). }
  destruct (_match_intent message recent_transactions).
  { unfold _handle_recent_transactions.
    destruct (Db.get_transactions _ _ _);
      eexists; (split; [reflexivity | cbn; tauto]). }
  eexists. split; [reflexivity | cbn; tauto].
Qed.

Lemma no_digit_no_write_witness :
  exists r,
    _process_with_regex (offline (mkDate 2026 11 4) 0) "i spent a lot on tea" 1 Db.empty
    = Ok (r, Db.empty)
    /\ In (action r) reading_actions.
Proof.
  apply (no_digit_no_write (offline (mkDate 2026 11 4) 0) "i spent a lot on tea" 1
           Db.empty).
  repeat constructor.
Defined.

End NoDigit.

(** ** Recommendation engine *)

Section Recommendations.

Import Predictor.
Local Open Scope Q_scope.

Lemma savings_advice_cases summary :
  savings_advice summary = []
  \/ (exists q, savings_advice summary
                = [mkRecommendation "💰" (IncreaseYourSavings q) "high"] /\ q < 10)
  \/ (exists q, savings_advice summary
                = [mkRecommendation "🌟" (GreatSavingsRate q) "low"] /\ 20 <= q).
Proof.
  unfold savings_advice. destruct (Qltb 0 (Db.s_income summary)); [|now left].
  match goal with |- context [Qltb ?q 10] => destruct (Qltb q 10) eqn:Hlow end.
  - right. left. eexists. split; [reflexivity|]. now apply Qltb_lt.
  - match goal with |- context [Qle_bool 20 ?q] => destruct (Qle_bool 20 q) eqn:Hhigh end.
    + right. right. eexists. split; [reflexivity|]. now apply Qle_bool_iff.
    + now left.
Qed.

Lemma top_category_advice_cases breakdown :
  top_category_advice breakdown = []
  \/ exists name q, top_category_advice breakdown
                    = [mkRecommendation "⚠️" (ReviewSpending name q) "medium"].
Proof.
  unfold top_category_advice. destruct breakdown as [|top rest]; [now left|].
  destruct (Qltb 0 _); [|now left]. destruct (Qltb 40 _); [|now left].
  right. eauto.
Qed.

(** X21: when [get_recommendations] returns, it gives at most five
    recommendations in the order of its rules; "Increase Your Savings" and
    "Great Savings Rate!" never come together; "Set Up Budgets" is there
    exactly when the user has no budget, "Watch Your Spending Trend"
    exactly when the forecast trend is "increasing", and "Build Emergency
    Fund" exactly when the balance of the month is positive. *)
Theorem recommendation_rules (user_id : Z) (today : date) (d : Db.db)
    (recs : list recommendation) :
  get_recommendations user_id today d = Ok recs ->
  let advices := map r_advice recs in
  let summary := Db.get_summary user_id (Some (first_of_month today)) None d in
  (length recs <= 5)%nat
  /\ ~ ((exists q, In (IncreaseYourSavings q) advices)
        /\ (exists q, In (GreatSavingsRate q) advices))
  /\ (In SetUpBudgets advices <-> Db.get_budgets user_id d = [])
  /\ (In WatchYourSpendingTrend advices
      <-> exists p, predict_next_month_expenses user_id today d = Ok p
                    /\ trend p = "increasing")
  /\ (In BuildEmergencyFund advices <-> 0 < Db.s_balance summary).
Proof.
  unfold get_recommendations.
  destruct (predict_next_month_expenses user_id today d) as [p|x]; [|discriminate].
  generalize (Db.get_summary user_id (Some (first_of_month today)) None d).
  intros summary [= <-].
  assert (Htrend : String.eqb (trend p) "increasing" = true
                   <-> exists p', Ok p = Ok p' /\ trend p' = "increasing").
  { rewrite String.eqb_eq. split; [eauto|]. now intros (p' & [= <-] & H). }
  pose proof (Qltb_lt 0 (Db.s_balance summary)) as Hfund.
  destruct (savings_advice_cases summary) as [-> | [(q & -> & _) | (q & -> & _)]];
    (destruct (top_category_advice_cases
                 (Db.get_category_breakdown user_id (Some (first_of_month today)) None
                    Db.Expense d)) as [-> | (name & q' & ->)]);
    destruct (Db.get_budgets user_id d) as [|b bs];
    destruct (String.eqb (trend p) "increasing");
    destruct (Qltb 0 (Db.s_balance summary));
    cbn [app map length r_advice In];
    (split; [lia|]);
    (split; [intros [[? H1] [? H2]]; intuition discriminate|]);
    (split; [split; [intros H; intuition discriminate | intros H; try discriminate; tauto]|]);
    (split; [rewrite <- Htrend; split; [intros H; intuition discriminate
                                      | intros H; try discriminate; tauto]|]);
    (rewrite <- Hfund; split; [intros H; intuition discriminate
                              | intros H; try discriminate; tauto]).
Qed.

Lemma recommendation_rules_witness :
  let recs := [mkRecommendation "⚠️" (ReviewSpending "Utilities" (30000 # 300)) "medium";
               mkRecommendation "📋" SetUpBudgets "medium"] in
  let advices := map r_advice recs in
  let summary := Db.get_summary 1 (Some (first_of_month (mkDate 2026 10 15))) None
                   three_expenses in
  (length recs <= 5)%nat
  /\ ~ ((exists q, In (IncreaseYourSavings q) advices)
        /\ (exists q, In (GreatSavingsRate q) advices))
  /\ (In SetUpBudgets advices <-> Db.get_budgets 1 three_expenses = [])
  /\ (In WatchYourSpendingTrend advices
      <-> exists p, predict_next_month_expenses 1 (mkDate 2026 10 15) three_expenses = Ok p
                    /\ trend p = "increasing")
  /\ (In BuildEmergencyFund advices <-> 0 < Db.s_balance summary).
Proof.
  apply (recommendation_rules 1 (mkDate 2026 10 15) three_expenses
           [mkRecommendation "⚠️" (ReviewSpending "Utilities" (30000 # 300)) "medium";
            mkRecommendation "📋" SetUpBudgets "medium"]).
  vm_compute. reflexivity.
Defined.

(** X22: once a budget is set on a category of the table, "Set Up
    Budgets" is no longer recommended to that user. *)
Theorem budget_silences_setup_advice (c : Db.category) (user_id : Z) (limit : Q)
    (today : date) (d : Db.db) (recs : list recommendation) :
  In c (Db.categories d) ->
  get_recommendations user_id today (Db.set_budget (Db.c_id c) user_id limit d) = Ok recs ->
  Forall (fun r => r_advice r <> SetUpBudgets) recs.
Proof.
  intros Hc. set (d' := Db.set_budget (Db.c_id c) user_id limit d).
  assert (Hsome : Db.get_budgets user_id d' <> []).
  { intros Hnil.
    assert (In (Db.mkBudgetRow (Db.c_id c) user_id limit (Db.c_name c) (Db.c_icon c))
               (Db.get_budgets user_id d')) as Hin.
    { unfold Db.get_budgets. apply in_flat_map. exists c. split; [exact Hc|].
      unfold d'. rewrite budget_after_set. now left. }
    rewrite Hnil in Hin. destruct Hin. }
  unfold get_recommendations.
  destruct (predict_next_month_expenses user_id today d') as [p|x]; [|discriminate].
  generalize (Db.get_summary user_id (Some (first_of_month today)) None d').
  intros summary [= <-].
  destruct (Db.get_budgets user_id d') as [|b bs]; [contradiction|].
  destruct (savings_advice_cases summary) as [-> | [(q & -> & _) | (q & -> & _)]];
    (destruct (top_category_advice_cases
                 (Db.get_category_breakdown user_id (Some (first_of_month today)) None
                    Db.Expense d')) as [-> | (name & q' & ->)]);
    destruct (String.eqb (trend p) "increasing");
    destruct (Qltb 0 _);
    cbn [app]; repeat (apply List.Forall_cons; [discriminate|]); apply List.Forall_nil.
Qed.

Lemma budget_silences_setup_advice_witness :
  Forall (fun r => r_advice r <> SetUpBudgets)
         [mkRecommendation "⚠️" (ReviewSpending "Utilities" (30000 # 300)) "medium"].
Proof.
  apply (budget_silences_setup_advice food 1 50 (mkDate 2026 10 15) three_expenses
           [mkRecommendation "⚠️" (ReviewSpending "Utilities" (30000 # 300)) "medium"]).
  - vm_compute. left. reflexivity.
  - vm_compute. reflexivity.
Defined.

End Recommendations.
